(** * ndn-js: PublisherID codec and VerificationHelpers

    A shallow embedding of [js/publisher-id.js] and
    [js/security/verification-helpers.js], and the properties of the
    identifier codec and of the signature verifier proved on it. *)

From Stdlib Require Import ZArith NArith Ascii String List Lia.
From stdpp Require Import base option strings pretty gmap list.

Open Scope string_scope.
Open Scope Z_scope.

(** ** The JavaScript fragment the two modules use *)

Module JS.

Definition bytes := list Byte.byte.

(** The values the two modules pass around and throw: [undefined],
    [null], booleans, the integers of the enumerations and of the tag
    table, and error objects.  Buffers and strings are typed apart. *)
Inductive value :=
| VUndefined
| VNull
| VBoolean (b : bool)
| VNumber (n : Z)
| VError (name message : string).

(** [new Error(msg)], and the errors the engine itself raises. *)
Definition Error (msg : string) : value := VError "Error" msg.
Definition ReferenceError (ident : string) : value :=
  VError "ReferenceError" (ident ++ " is not defined").
Definition TypeError (msg : string) : value := VError "TypeError" msg.

(** The result of evaluating a statement or a call: it returns or it throws. *)
Inductive Completion (A : Type) :=
| Normal (a : A)
| Throw (ex : value).
Arguments Normal {A} a.
Arguments Throw {A} ex.

#[export] Instance Completion_ret : MRet Completion := @Normal.
#[export] Instance Completion_bind : MBind Completion :=
  fun A B f m => match m with Normal a => f a | Throw ex => Throw ex end.

#[export] Instance Completion_fmap : FMap Completion :=
  fun A B f m => match m with Normal a => Normal (f a) | Throw ex => Throw ex end.

Definition is_Throw {A} (c : Completion A) : bool :=
  match c with Throw _ => true | Normal _ => false end.

(** [typeof v === 'boolean'] *)
Definition typeof_boolean (v : value) : bool :=
  match v with VBoolean _ => true | _ => false end.

(** ToBoolean. *)
Definition truthy (v : value) : bool :=
  match v with
  | VUndefined | VNull => false
  | VBoolean b => b
  | VNumber n => negb (n =? 0)
  | VError _ _ => true
  end.

(** [v == null], which is also [v == undefined]. *)
Definition loose_eq_null (v : value) : bool :=
  match v with VUndefined | VNull => true | _ => false end.

(** [v == n] for a number [n]: a boolean is compared by ToNumber, an
    error object converts to a string that is no number. *)
Definition loose_eq_number (v : value) (n : Z) : bool :=
  match v with
  | VNumber m => m =? n
  | VBoolean b => (if b then 1 else 0) =? n
  | _ => false
  end.

(** ToString, as string concatenation applies it. *)
Definition toString (v : value) : string :=
  match v with
  | VUndefined => "undefined"
  | VNull => "null"
  | VBoolean b => if b then "true" else "false"
  | VNumber n => pretty n
  | VError name message =>
      if String.eqb message "" then name
      else if String.eqb name "" then message
      else name ++ ": " ++ message
  end.

(** The identifiers a module does not bind itself resolve in the host's
    global scope; calling one that is bound nowhere is a ReferenceError. *)
Abbreviation HostFunction := (list value -> Completion value).
Abbreviation Host := (gmap string HostFunction).

Definition call_global (host : Host) (ident : string) (args : list value)
  : Completion value :=
  match host !! ident with
  | None => Throw (ReferenceError ident)
  | Some fn => fn args
  end.

End JS.
Import JS.

(** ** js/publisher-id.js *)

(** The four entries of [NDNProtocolDTags] the module reads.  The table
    lives in [util/ndn-protoco-id-tags.js]; the codec is parametric in it. *)
Record NDNProtocolDTags := {
  PublisherPublicKeyDigest : Z;
  PublisherCertificateDigest : Z;
  PublisherIssuerKeyDigest : Z;
  PublisherIssuerCertificateDigest : Z
}.

(** [new PublisherType(tag)]. *)
Record PublisherType := {
  KEY : Z;
  CERTIFICATE : Z;
  ISSUER_KEY : Z;
  ISSUER_CERTIFICATE : Z;
  Tag : Z
}.

(** A [PublisherID] object; [None] is JavaScript's [null]. *)
Record PublisherID := {
  PUBLISHER_ID_DIGEST_ALGORITHM : string;
  PUBLISHER_ID_LEN : Z;
  publisherID : option bytes;
  publisherType : option PublisherType
}.

(** The two methods of the decoder the codec calls.  [peekDTag] looks
    ahead without consuming; [readBinaryDTagElement] consumes and yields
    the payload or [null]. *)
Class BinaryXMLDecoder (D : Type) := {
  peekDTag : D -> Z -> bool;
  readBinaryDTagElement : D -> Z -> Completion (option bytes) * D
}.

(** The one method of the encoder the codec calls. *)
Class BinaryXMLEncoder (E : Type) := {
  writeDTagElement : E -> Z -> option bytes -> Completion unit * E
}.

(** The calls made on a decoder, oldest first. *)
Inductive DecoderCall :=
| CallPeekDTag (tag : Z)
| CallReadBinaryDTagElement (tag : Z).

Record Decoding (D : Type) := {
  decoder : D;
  calls : list DecoderCall
}.
Arguments decoder {D} _.
Arguments calls {D} _.

Definition fresh {D} (d : D) : Decoding D := {| decoder := d; calls := [] |}.

Section Codec.
Context (tags : NDNProtocolDTags).
Context {D : Type} `{BinaryXMLDecoder D}.
Context {E : Type} `{BinaryXMLEncoder E}.
Context (host : Host).

Definition new_PublisherType (tag : Z) : PublisherType :=
  {| KEY := PublisherPublicKeyDigest tags;
     CERTIFICATE := PublisherCertificateDigest tags;
     ISSUER_KEY := PublisherIssuerKeyDigest tags;
     ISSUER_CERTIFICATE := PublisherIssuerCertificateDigest tags;
     Tag := tag |}.

Definition new_PublisherID : PublisherID :=
  {| PUBLISHER_ID_DIGEST_ALGORITHM := "SHA-256";
     PUBLISHER_ID_LEN := 256 / 8;
     publisherID := None;
     publisherType := None |}.

(** [decoder.peekDTag(tag)] *)
Definition call_peekDTag (tag : Z) (s : Decoding D) : bool * Decoding D :=
  (peekDTag (decoder s) tag,
   {| decoder := decoder s; calls := calls s ++ [CallPeekDTag tag] |}).

(** [decoder.readBinaryDTagElement(tag)] *)
Definition call_readBinaryDTagElement (tag : Z) (s : Decoding D)
  : Completion (option bytes) * Decoding D :=
  let '(r, d) := readBinaryDTagElement (decoder s) tag in
  (r, {| decoder := d; calls := calls s ++ [CallReadBinaryDTagElement tag] |}).

(** [PublisherID.peekAndGetNextDTag] *)
Definition peekAndGetNextDTag (s : Decoding D) : Z * Decoding D :=
  let '(b, s) := call_peekDTag (PublisherPublicKeyDigest tags) s in
  if b then (PublisherPublicKeyDigest tags, s) else
  let '(b, s) := call_peekDTag (PublisherCertificateDigest tags) s in
  if b then (PublisherCertificateDigest tags, s) else
  let '(b, s) := call_peekDTag (PublisherIssuerKeyDigest tags) s in
  if b then (PublisherIssuerKeyDigest tags, s) else
  let '(b, s) := call_peekDTag (PublisherIssuerCertificateDigest tags) s in
  if b then (PublisherIssuerCertificateDigest tags, s) else
  (-1, s).

(** [PublisherID.peek] *)
Definition peek (s : Decoding D) : bool * Decoding D :=
  let '(t, s) := peekAndGetNextDTag s in (0 <=? t, s).

Definition set_publisherType (this : PublisherID) (t : option PublisherType) :=
  {| PUBLISHER_ID_DIGEST_ALGORITHM := PUBLISHER_ID_DIGEST_ALGORITHM this;
     PUBLISHER_ID_LEN := PUBLISHER_ID_LEN this;
     publisherID := publisherID this;
     publisherType := t |}.

Definition set_publisherID (this : PublisherID) (b : option bytes) :=
  {| PUBLISHER_ID_DIGEST_ALGORITHM := PUBLISHER_ID_DIGEST_ALGORITHM this;
     PUBLISHER_ID_LEN := PUBLISHER_ID_LEN this;
     publisherID := b;
     publisherType := publisherType this |}.

(** [throw new ContentDecodingException(new Error(msg))]: the module binds
    no [ContentDecodingException], so the name resolves in the host. *)
Definition throw_ContentDecodingException {A} (msg : string) : Completion A :=
  match call_global host "ContentDecodingException" [Error msg] with
  | Normal ex => Throw ex
  | Throw ex => Throw ex
  end.

(** [PublisherID.prototype.from_ndnb]: the completion, the object after
    the call, and the decoder after the call. *)
Definition from_ndnb (this : PublisherID) (s : Decoding D)
  : Completion unit * PublisherID * Decoding D :=
  let '(nextTag, s) := peekAndGetNextDTag s in
  let this := set_publisherType this (Some (new_PublisherType nextTag)) in
  if nextTag <? 0 then
    (Throw (Error "Invalid publisher ID, got unexpected type"), this, s)
  else
    let '(r, s) := call_readBinaryDTagElement nextTag s in
    match r with
    | Throw ex => (Throw ex, this, s)
    | Normal payload =>
        let this := set_publisherID this payload in
        match payload with
        | None =>
            (throw_ContentDecodingException
               ("Cannot parse publisher ID of type : " ++ toString (VNumber nextTag) ++ "."),
             this, s)
        | Some _ => (Normal tt, this, s)
        end
    end.

(** [PublisherID.prototype.getElementLabel]: [this.publisherType.Tag]. *)
Definition getElementLabel (this : PublisherID) : Completion Z :=
  match publisherType this with
  | None => Throw (TypeError "Cannot read property 'Tag' of null")
  | Some t => Normal (Tag t)
  end.

(** [PublisherID.prototype.validate]: [null != id() && null != type()].
    Neither [id] nor [type] is bound in the module. *)
Definition validate (this : PublisherID) : Completion bool :=
  r ← call_global host "id" [];
  if loose_eq_null r then mret false
  else r' ← call_global host "type" []; mret (negb (loose_eq_null r')).

(** [PublisherID.prototype.to_ndnb].  The message of the error of the
    first branch is built with [this.getClass()], which no [PublisherID]
    has. *)
Definition to_ndnb (this : PublisherID) (encoder : E) : Completion unit * E :=
  match validate this with
  | Throw ex => (Throw ex, encoder)
  | Normal false => (Throw (TypeError "this.getClass is not a function"), encoder)
  | Normal true =>
      match getElementLabel this with
      | Throw ex => (Throw ex, encoder)
      | Normal label => writeDTagElement encoder label (publisherID this)
      end
  end.

End Codec.

(** *** A wire to run the codec on *)

(** Modelled from the spec: the decoder and the encoder ([BinaryXMLDecoder],
    [BinaryXMLEncoder]) are not part of the two modules.  A wire is the
    sequence of tagged binary elements still to be read; the decoder matches
    and consumes the first element, the encoder appends one element. *)
Definition Wire : Type := list (Z * bytes).

#[export] Instance Wire_decoder : BinaryXMLDecoder Wire := {|
  peekDTag w tag :=
    match w with
    | (t, _) :: _ => t =? tag
    | [] => false
    end;
  readBinaryDTagElement w tag :=
    match w with
    | (t, payload) :: rest =>
        if t =? tag then (Normal (Some payload), rest) else (Normal None, w)
    | [] => (Normal None, w)
    end
|}.

#[export] Instance Wire_encoder : BinaryXMLEncoder Wire := {|
  writeDTagElement w tag content :=
    match content with
    | Some payload => (Normal tt, (w ++ [(tag, payload)])%list)
    | None => (Throw (TypeError "Cannot read property 'length' of null"), w)
    end
|}.

(** A crafted decoder that reports a match for every tag of a given list. *)
Record CraftedDecoder := { matching : list Z; content : option bytes }.

#[export] Instance Crafted_decoder : BinaryXMLDecoder CraftedDecoder := {|
  peekDTag d tag := existsb (Z.eqb tag) (matching d);
  readBinaryDTagElement d tag := (Normal (content d), d)
|}.

(** A tag table to run the codec with: four consecutive numbers, in the
    order the protocol lists the four digests. *)
Definition protocol_tags : NDNProtocolDTags :=
  {| PublisherPublicKeyDigest := 59;
     PublisherCertificateDigest := 60;
     PublisherIssuerKeyDigest := 61;
     PublisherIssuerCertificateDigest := 62 |}.

(** A host whose global scope binds none of the names the module looks up. *)
Definition bare_host : Host := ∅.

Definition sample_digest : bytes :=
  repeat Byte.x2a 32.

(** A valid identifier: a key digest of 32 bytes. *)
Definition key_identifier : PublisherID :=
  {| PUBLISHER_ID_DIGEST_ALGORITHM := "SHA-256";
     PUBLISHER_ID_LEN := 32;
     publisherID := Some sample_digest;
     publisherType := Some (new_PublisherType protocol_tags 59) |}.

(** The probing order of the four tags. *)
Definition probe_order (tags : NDNProtocolDTags) : list Z :=
  [ PublisherPublicKeyDigest tags;
    PublisherCertificateDigest tags;
    PublisherIssuerKeyDigest tags;
    PublisherIssuerCertificateDigest tags ].

(** The probes made on a list of tags when probing stops at the first
    success. *)
Fixpoint probes_until (p : Z -> bool) (l : list Z) : list Z :=
  match l with
  | [] => []
  | t :: l' => t :: (if p t then [] else probes_until p l')
  end.

(** The error [to_ndnb] builds for a value that does not validate:
    "Cannot encode <class>: field values missing." *)
Definition missing_field_values (ex : value) : Prop :=
  ∃ class : string, ex = Error ("Cannot encode " ++ class ++ ": field values missing.").

(** ** js/security/verification-helpers.js *)

(** *** What the module imports *)

(** [Buffer.prototype.toString('base64')] *)
Definition base64_alphabet : string :=
  "ABCDEFGHIJKLMNOPQRSTUVWXYZabcdefghijklmnopqrstuvwxyz0123456789+/".

Definition base64_digit (n : N) : ascii :=
  match String.get (N.to_nat n) base64_alphabet with
  | Some c => c
  | None => "="%char
  end.

Fixpoint base64 (b : bytes) : string :=
  match b with
  | [] => ""
  | [x] =>
      let n := Byte.to_N x in
      String (base64_digit (n / 4))
        (String (base64_digit ((n mod 4) * 16)) "==")
  | [x; y] =>
      let n := Byte.to_N x in
      let m := Byte.to_N y in
      String (base64_digit (n / 4))
        (String (base64_digit ((n mod 4) * 16 + m / 16))
           (String (base64_digit ((m mod 16) * 4)) "="))
  | x :: y :: z :: rest =>
      let n := Byte.to_N x in
      let m := Byte.to_N y in
      let k := Byte.to_N z in
      String (base64_digit (n / 4))
        (String (base64_digit ((n mod 4) * 16 + m / 16))
           (String (base64_digit ((m mod 16) * 4 + k / 64))
              (String (base64_digit (k mod 64)) (base64 rest))))
  end%N.

(** [Buffer.prototype.toString('binary')]: one character per byte. *)
Definition binary_string (b : bytes) : string := string_of_list_byte b.

Definition newline : string := String (ascii_of_nat 10) "".

(** The loop [for (var i = 0; i < keyBase64.length; i += 64)
    keyPem += (keyBase64.substr(i, 64) + "\n")].  Every turn advances [i],
    so [length keyBase64] turns are never used up
    ([pem_lines_turns_suffice]). *)
Fixpoint pem_lines (turns : nat) (keyBase64 : string) (i : nat) (keyPem : string)
  : string :=
  match turns with
  | O => keyPem
  | S turns' =>
      if (i <? String.length keyBase64)%nat then
        pem_lines turns' keyBase64 (i + 64)
          (keyPem ++ (substring i 64 keyBase64 ++ newline))
      else keyPem
  end.

(** The PEM text both synchronous branches build from the key's DER. *)
Definition pem_of_der (der : bytes) : string :=
  let keyBase64 := base64 der in
  let keyPem := "-----BEGIN PUBLIC KEY-----" ++ newline in
  let keyPem := pem_lines (String.length keyBase64) keyBase64 0 keyPem in
  keyPem ++ "-----END PUBLIC KEY-----".

(** [security-types.js]: the enumerators the module compares with. *)
Record SecurityTypes := {
  KeyType_RSA : Z;
  KeyType_ECDSA : Z;
  DigestAlgorithm_SHA256 : Z
}.

(** [certificate/public-key.js]: a parsed key.  [getKeyDer] is the bytes of
    [getKeyDer().buf()], the DER; [getKeyDer_buffer] is
    [getKeyDer().buf().buffer], the ArrayBuffer that Buffer is a view of,
    which may hold more than the DER. *)
Record PublicKey := {
  getKeyType : Z;
  getKeyDer : bytes;
  getKeyDer_buffer : bytes
}.

(** [crypto.js]: hashing and synchronous verification.  A hash result and a
    signature argument are a string in some versions and a Buffer in
    others. *)
Inductive HashResult :=
| HashString (s : string)
| HashBuffer (b : bytes).

Inductive SignatureArg :=
| SignatureString (s : string)
| SignatureBuffer (b : bytes).

Record CryptoModule := {
  Verify : Type;
  (** [Crypto.createHash(algorithm).digest()]: the digest of the empty
      input, which every backend returns; backends differ in its type *)
  createHash_digest : string -> HashResult;
  (** [Crypto.createVerify(algorithm)] *)
  createVerify : string -> Completion Verify;
  (** [verifier.update(buffer)] *)
  update : Verify -> bytes -> Completion Verify;
  (** [verifier.verify(keyPem, signatureBytes)] *)
  verify : Verify -> string -> SignatureArg -> Completion bool
}.

(** How a promise settles. *)
Inductive Settlement :=
| Fulfilled (v : bool)
| Rejected (reason : value).

(** [crypto.subtle]: the asynchronous engine.  Each operation yields a
    promise; the model gives the way it settles. *)
Record SubtleCrypto := {
  CryptoKey : Type;
  importKey : bytes -> CryptoKey + value;
  subtle_verify : CryptoKey -> bytes -> bytes -> Settlement
}.

(** What a call returns: a [SyncPromise], settled when it is returned, or a
    promise of the engine, settled later. *)
Inductive Promise :=
| SyncPromise (s : Settlement)
| AsyncPromise (s : Settlement).

Definition SyncPromise_resolve (v : bool) : Promise := SyncPromise (Fulfilled v).
Definition SyncPromise_reject (reason : value) : Promise := SyncPromise (Rejected reason).

(** The environment of the module. *)
Record Environment := {
  types : SecurityTypes;
  (** [new PublicKey(new Blob(der))] *)
  new_PublicKey : bytes -> Completion PublicKey;
  Crypto : CryptoModule;
  (** the global [crypto.subtle], where the host has one *)
  crypto_subtle : option SubtleCrypto
}.

(** Modelled from the spec: [use-subtle-crypto-node.js] is not part of the
    two modules.  [UseSubtleCrypto()] tells whether an asynchronous
    cryptographic engine capability is available in the current
    environment. *)
Definition UseSubtleCrypto (env : Environment) : bool :=
  match crypto_subtle env with Some _ => true | None => false end.

(** *** The arguments of [verifySignaturePromise] *)

(** [buffer] and [signature]: a Buffer or a Blob. *)
Inductive BufferArg :=
| ArgBuffer (b : bytes)
| ArgBlob (b : bytes).

(** [if (x instanceof Blob) x = x.buf()] *)
Definition unwrap (x : BufferArg) : bytes :=
  match x with ArgBuffer b => b | ArgBlob b => b end.

(** [publicKey]: a PublicKey object, or the key's DER in a Blob or a Buffer. *)
Inductive PublicKeyArg :=
| ArgPublicKey (pk : PublicKey)
| ArgKeyBlob (der : bytes)
| ArgKeyBuffer (der : bytes).

(** *** The state of the process *)

(** The calls on the cryptographic backends the process keeps track of,
    oldest first: the probe [Crypto.createHash(algorithm)],
    [crypto.subtle.importKey] with the key data it is given,
    [Crypto.createVerify(algorithm)] and [verifier.verify].  The calls in
    between ([digest], [update]) and the [crypto.subtle.verify] the engine
    is asked for once the import has settled are not kept. *)
Inductive CryptoCall :=
| CallCreateHash (algorithm : string)
| CallImportKey (keyData : bytes)
| CallCreateVerify (algorithm : string)
| CallVerify (keyPem : string) (signatureBytes : SignatureArg).

(** [VerificationHelpers.verifyUsesString_] ([None] is [null]) and the
    calls made so far. *)
Record Process := {
  verifyUsesString_ : option bool;
  trace : list CryptoCall
}.

(** The state the module is loaded in: [verifyUsesString_ = null]. *)
Definition initial : Process := {| verifyUsesString_ := None; trace := [] |}.

(** Statements run on the process state and return or throw. *)
Definition M (A : Type) : Type := Process -> Completion A * Process.

#[export] Instance M_ret : MRet M := fun A a p => (Normal a, p).
#[export] Instance M_bind : MBind M :=
  fun A B f m p =>
    match m p with
    | (Normal a, p') => f a p'
    | (Throw ex, p') => (Throw ex, p')
    end.

Definition lift {A} (c : Completion A) : M A := fun p => (c, p).

Definition record (c : CryptoCall) : M unit :=
  fun p => (Normal tt,
            {| verifyUsesString_ := verifyUsesString_ p;
               trace := (trace p ++ [c])%list |}).

Definition read_verifyUsesString_ : M (option bool) :=
  fun p => (Normal (verifyUsesString_ p), p).

Definition write_verifyUsesString_ (b : bool) : M unit :=
  fun p => (Normal tt, {| verifyUsesString_ := Some b; trace := trace p |}).

(** [try { body } catch (ex) { handler }]: what the body wrote before it
    threw stays written. *)
Definition try_catch {A} (body : M A) (handler : value -> M A) : M A :=
  fun p =>
    match body p with
    | (Normal a, p') => (Normal a, p')
    | (Throw ex, p') => handler ex p'
    end.

Definition typeof_string (h : HashResult) : bool :=
  match h with HashString _ => true | HashBuffer _ => false end.

(** [verifyUsesString_ ? signature.toString('binary') : signature] *)
Definition signatureBytes_for (verifyUsesString : bool) (signature : bytes)
  : SignatureArg :=
  if verifyUsesString then SignatureString (binary_string signature)
  else SignatureBuffer signature.

Section Verifier.
Context (env : Environment).

(** [VerificationHelpers.setVerifyUsesString_] *)
Definition setVerifyUsesString_ : M unit :=
  record (CallCreateHash "sha256") ;;
  let hashResult := createHash_digest (Crypto env) "sha256" in
  write_verifyUsesString_ (typeof_string hashResult).

(** The body of the [try] block of the RSA branch and of the ECDSA
    branch; the two differ in the name given to [createVerify] only. *)
Definition verify_with (algorithm : string) (buffer signature : bytes)
    (publicKey : PublicKey) : M Promise :=
  flag ← read_verifyUsesString_;
  (if flag is None then setVerifyUsesString_ else mret tt) ;;
  let keyPem := pem_of_der (getKeyDer publicKey) in
  record (CallCreateVerify algorithm) ;;
  verifier ← lift (createVerify (Crypto env) algorithm);
  verifier ← lift (update (Crypto env) verifier buffer);
  flag ← read_verifyUsesString_;
  let signatureBytes := signatureBytes_for (default false flag) signature in
  record (CallVerify keyPem signatureBytes) ;;
  result ← lift (verify (Crypto env) verifier keyPem signatureBytes);
  mret (SyncPromise_resolve result).

(** [crypto.subtle.importKey(...).then(key => crypto.subtle.verify(...))] *)
Definition import_then_verify (subtle : SubtleCrypto) (buffer signature : bytes)
    (publicKey : PublicKey) : M Promise :=
  record (CallImportKey (getKeyDer_buffer publicKey)) ;;
  mret (AsyncPromise
          match importKey subtle (getKeyDer_buffer publicKey) with
          | inl key => subtle_verify subtle key signature buffer
          | inr reason => Rejected reason
          end).


(** The [try] block that turns [publicKey] into a PublicKey object. *)
Definition to_PublicKey (publicKey : PublicKeyArg) : Completion PublicKey :=
  match publicKey with
  | ArgPublicKey pk => Normal pk
  | ArgKeyBlob der => new_PublicKey env der
  | ArgKeyBuffer der => new_PublicKey env der
  end.

(** The first statement: a boolean in the place of [digestAlgorithm] is
    [useSync]. *)
Definition shift (digestAlgorithm useSync : value) : value * value :=
  if typeof_boolean digestAlgorithm then (VUndefined, digestAlgorithm)
  else (digestAlgorithm, useSync).

(** [VerificationHelpers.verifySignaturePromise] *)
Definition verifySignaturePromise (buffer signature : BufferArg)
    (publicKey : PublicKeyArg) (digestAlgorithm useSync : value) : M Promise :=
  let '(digestAlgorithm, useSync) := shift digestAlgorithm useSync in
  let buffer := unwrap buffer in
  let signature := unwrap signature in
  match to_PublicKey publicKey with
  | Throw ex =>
      mret (SyncPromise_reject
              (Error ("verifySignature: Error decoding public key DER: " ++ toString ex)))
  | Normal publicKey =>
      let digestAlgorithm :=
        if loose_eq_null digestAlgorithm
        then VNumber (DigestAlgorithm_SHA256 (types env))
        else digestAlgorithm in
      if loose_eq_number digestAlgorithm (DigestAlgorithm_SHA256 (types env)) then
        if getKeyType publicKey =? KeyType_RSA (types env) then
          if UseSubtleCrypto env && negb (truthy useSync) then
            match crypto_subtle env with
            | Some subtle => import_then_verify subtle buffer signature publicKey
            | None => lift (Throw (ReferenceError "crypto"))
            end
          else
            try_catch (verify_with "RSA-SHA256" buffer signature publicKey)
              (fun ex =>
                 mret (SyncPromise_reject
                         (Error ("verifySignature: Error is RSA verify: " ++ toString ex))))
        else if getKeyType publicKey =? KeyType_ECDSA (types env) then
          try_catch (verify_with "sha256" buffer signature publicKey)
            (fun ex =>
               mret (SyncPromise_reject
                       (Error ("verifySignature: Error is ECDSA verify: " ++ toString ex))))
        else
          mret (SyncPromise_reject (Error "verifySignature: Invalid key type"))
      else
        mret (SyncPromise_reject (Error "verifySignature: Invalid digest algorithm"))
  end.

(** A call of [verifySignaturePromise]. *)
Record Request := {
  req_buffer : BufferArg;
  req_signature : BufferArg;
  req_publicKey : PublicKeyArg;
  req_digestAlgorithm : value;
  req_useSync : value
}.

Definition serve (r : Request) : M Promise :=
  verifySignaturePromise (req_buffer r) (req_signature r) (req_publicKey r)
    (req_digestAlgorithm r) (req_useSync r).

(** The process after a sequence of calls, one after the other. *)
Definition after (rs : list Request) (p : Process) : Process :=
  fold_left (fun p r => (serve r p).2) rs p.

End Verifier.

(** How often the backend was probed. *)
Definition is_probe (c : CryptoCall) : bool :=
  match c with CallCreateHash _ => true | _ => false end.

Definition probes (p : Process) : nat := length (List.filter is_probe (trace p)).

(** The calls a process made since an earlier state. *)
Definition since (before after : Process) : list CryptoCall :=
  drop (length (trace before)) (trace after).

(** *** Notions the properties of the verifier are stated with *)

(** The bit the probe finds: whether the backend's hash is a string. *)
Definition backend_uses_string (env : Environment) : bool :=
  typeof_string (createHash_digest (Crypto env) "sha256").

(** The flag a synchronous verification works with: the cached one, or the
    one probed on the spot. *)
Definition flag_in_force (env : Environment) (p : Process) : bool :=
  match verifyUsesString_ p with
  | Some b => b
  | None => backend_uses_string env
  end.

(** The probe a synchronous verification starts with, if any. *)
Definition probe_calls (p : Process) : list CryptoCall :=
  match verifyUsesString_ p with
  | None => [CallCreateHash "sha256"]
  | Some _ => []
  end.

(** The three calls on the synchronous primitive, in a row. *)
Definition prepared (env : Environment) (algorithm : string) (buffer : bytes)
  : Completion (Verify (Crypto env)) :=
  verifier ← createVerify (Crypto env) algorithm;
  update (Crypto env) verifier buffer.

Definition run_verifier (env : Environment) (algorithm : string) (buffer : bytes)
    (keyPem : string) (signatureBytes : SignatureArg) : Completion bool :=
  verifier ← prepared env algorithm buffer;
  verify (Crypto env) verifier keyPem signatureBytes.

(** The states the process goes through: the flag is unset and no probe
    was made, or it holds the bit of the backend and one probe was made. *)
Definition flag_consistent (env : Environment) (p : Process) : Prop :=
  (verifyUsesString_ p = None /\ probes p = 0%nat)
  \/ (verifyUsesString_ p = Some (backend_uses_string env) /\ probes p = 1%nat).

(** The process after a synchronous verification: the flag is set, and the
    probe (if the flag was unset), [createVerify] and, unless the verifier
    could not be prepared, [verify] are on the trace. *)
Definition after_sync (env : Environment) (algorithm : string)
    (buffer signature : bytes) (publicKey : PublicKey) (p : Process) : Process :=
  {| verifyUsesString_ := Some (flag_in_force env p);
     trace :=
       (trace p ++ probe_calls p ++
        CallCreateVerify algorithm ::
        (if is_Throw (prepared env algorithm buffer) then []
         else [CallVerify (pem_of_der (getKeyDer publicKey))
                 (signatureBytes_for (flag_in_force env p) signature)]))%list |}.

(** The process after a call was handed to the engine. *)
Definition after_import (publicKey : PublicKey) (p : Process) : Process :=
  {| verifyUsesString_ := verifyUsesString_ p;
     trace := (trace p ++ [CallImportKey (getKeyDer_buffer publicKey)])%list |}.

(** The way the promise of the engine settles. *)
Definition engine_settlement (subtle : SubtleCrypto) (buffer signature : bytes)
    (publicKey : PublicKey) : Settlement :=
  match importKey subtle (getKeyDer_buffer publicKey) with
  | inl key => subtle_verify subtle key signature buffer
  | inr reason => Rejected reason
  end.

(** The digest algorithm in force is SHA-256: the argument is omitted
    ([undefined], [null], or a boolean in its place) or is the enumerator. *)
Definition sha256_in_force (env : Environment) (digestAlgorithm : value) : bool :=
  match digestAlgorithm with
  | VUndefined | VNull | VBoolean _ => true
  | VNumber n => n =? DigestAlgorithm_SHA256 (types env)
  | VError _ _ => false
  end.

(** The [useSync] in force after the shift of the arguments. *)
Definition useSync_in_force (digestAlgorithm useSync : value) : value :=
  match digestAlgorithm with
  | VBoolean _ => digestAlgorithm
  | _ => useSync
  end.

(** The failures of the verifier, by the messages the module gives them. *)
Definition InvalidKey (ex : value) : value :=
  Error ("verifySignature: Error decoding public key DER: " ++ toString ex).
Definition UnsupportedAlgorithm : value :=
  Error "verifySignature: Invalid digest algorithm".
Definition UnsupportedKeyType : value :=
  Error "verifySignature: Invalid key type".
Definition VerificationEngineError (keyType : string) (ex : value) : value :=
  Error ("verifySignature: Error is " ++ keyType ++ " verify: " ++ toString ex).

(** The call was handed to the asynchronous engine. *)
Definition delegated (before : Process) (r : Completion Promise * Process) : Prop :=
  (exists s, r.1 = Normal (AsyncPromise s))
  /\ exists der, CallImportKey der ∈ since before r.2.

(** The call took the synchronous path under the given name: it made the
    PEM text of the key's DER, created the verifier and, unless the verifier
    could not be made ready, asked it to verify the PEM text and the
    signature; the promise it returned is a SyncPromise, settled with the
    boolean of the primitive or rejected with what the primitive threw; the
    engine was not called. *)
Definition synchronous (env : Environment) (algorithm keyType : string)
    (buffer signature : BufferArg) (publicKey : PublicKey) (before : Process)
    (r : Completion Promise * Process) : Prop :=
  let keyPem := pem_of_der (getKeyDer publicKey) in
  let signatureBytes :=
    signatureBytes_for (flag_in_force env before) (unwrap signature) in
  r.1 = Normal
          match run_verifier env algorithm (unwrap buffer) keyPem signatureBytes with
          | Normal ok => SyncPromise_resolve ok
          | Throw ex => SyncPromise_reject (VerificationEngineError keyType ex)
          end
  /\ (exists settled, r.1 = Normal (SyncPromise settled))
  /\ CallCreateVerify algorithm ∈ since before r.2
  /\ (is_Throw (prepared env algorithm (unwrap buffer)) = false ->
      CallVerify keyPem signatureBytes ∈ since before r.2)
  /\ forall keyData, CallImportKey keyData ∈ since before r.2 -> False.

(** The decision on the key type, as a property of one call: when it is
    handed to the engine, what the engine is given, what happens on an ECDSA
    key, and what on a key of another type. *)
Definition key_type_decision (env : Environment) (buffer signature : BufferArg)
    (k : PublicKeyArg) (useSync : value) (before : Process)
    (r : Completion Promise * Process) : Prop :=
  (delegated before r <->
     exists pk, to_PublicKey env k = Normal pk
       /\ getKeyType pk = KeyType_RSA (types env)
       /\ UseSubtleCrypto env = true
       /\ truthy useSync = false)
  /\ (forall pk subtle,
        to_PublicKey env k = Normal pk ->
        getKeyType pk = KeyType_RSA (types env) ->
        crypto_subtle env = Some subtle ->
        truthy useSync = false ->
        r.1 = Normal (AsyncPromise
                        (engine_settlement subtle (unwrap buffer) (unwrap signature) pk))
        /\ CallImportKey (getKeyDer_buffer pk) ∈ since before r.2)
  /\ (forall pk,
        to_PublicKey env k = Normal pk ->
        getKeyType pk = KeyType_ECDSA (types env) ->
        KeyType_RSA (types env) <> KeyType_ECDSA (types env) ->
        synchronous env "sha256" "ECDSA" buffer signature pk before r)
  /\ (forall pk,
        to_PublicKey env k = Normal pk ->
        getKeyType pk <> KeyType_RSA (types env) ->
        getKeyType pk <> KeyType_ECDSA (types env) ->
        r.1 = Normal (SyncPromise_reject UnsupportedKeyType)).

(** *** An environment to run the verifier in *)

Definition bytes_eqb (a b : bytes) : bool :=
  (length a =? length b)%nat && forallb (fun '(x, y) => Byte.eqb x y) (combine a b).

(** A backend for tests: a verifier collects the data, and a signature
    verifies when it repeats the data; an empty key text is refused with an
    exception. *)
Definition test_Crypto (uses_string : bool) : CryptoModule :=
  {| Verify := bytes;
     createHash_digest _ := if uses_string then HashString "" else HashBuffer [];
     createVerify _ := Normal [];
     update v b := Normal (v ++ b)%list;
     verify v keyPem signatureBytes :=
       if (String.length keyPem <=? 52)%nat then Throw (Error "PEM routines: no start line")
       else
         match signatureBytes with
         | SignatureString s => Normal (String.eqb s (binary_string v))
         | SignatureBuffer b => Normal (bytes_eqb b v)
         end |}.

Definition test_subtle : SubtleCrypto :=
  {| CryptoKey := bytes;
     importKey der := match der with [] => inr (Error "DataError") | _ => inl der end;
     subtle_verify _ signature buffer := Fulfilled (bytes_eqb signature buffer) |}.

Definition test_types : SecurityTypes :=
  {| KeyType_RSA := 0; KeyType_ECDSA := 1; DigestAlgorithm_SHA256 := 1 |}.

(** A parser for tests: the first byte of the DER names the key type. *)
Definition test_new_PublicKey (der : bytes) : Completion PublicKey :=
  match der with
  | Byte.x00 :: _ =>
      Normal {| getKeyType := 0; getKeyDer := der; getKeyDer_buffer := der |}
  | Byte.x01 :: _ =>
      Normal {| getKeyType := 1; getKeyDer := der; getKeyDer_buffer := der |}
  | Byte.x80 :: _ =>
      Normal {| getKeyType := 128; getKeyDer := der; getKeyDer_buffer := der |}
  | _ => Throw (VError "UnrecognizedKeyFormatException" "unrecognized OID")
  end.

Definition test_env (uses_string : bool) (subtle : option SubtleCrypto) : Environment :=
  {| types := test_types;
     new_PublicKey := test_new_PublicKey;
     Crypto := test_Crypto uses_string;
     crypto_subtle := subtle |}.

(** A browser with the engine, and Node.js without it. *)
Definition browser_env : Environment := test_env false (Some test_subtle).
Definition node_env : Environment := test_env false None.

Definition rsa_key : PublicKey :=
  {| getKeyType := 0;
     getKeyDer := [Byte.x00; Byte.x2a];
     getKeyDer_buffer := [Byte.x00; Byte.x2a; Byte.x00; Byte.x00; Byte.x00; Byte.x00] |}.
Definition ecdsa_key : PublicKey :=
  {| getKeyType := 1;
     getKeyDer := [Byte.x01; Byte.x2a];
     getKeyDer_buffer := [Byte.x01; Byte.x2a] |}.
Definition aes_key : PublicKey :=
  {| getKeyType := 128;
     getKeyDer := [Byte.x80; Byte.x2a];
     getKeyDer_buffer := [Byte.x80; Byte.x2a] |}.
Definition message : bytes := [Byte.x68; Byte.x69].

(** The three components of what [from_ndnb] yields. *)
Definition completion {D} (r : Completion unit * PublisherID * Decoding D) := r.1.1.
Definition this_after {D} (r : Completion unit * PublisherID * Decoding D) := r.1.2.
Definition decoding_after {D} (r : Completion unit * PublisherID * Decoding D) := r.2.

(** The calls made on the decoder between two states of a decoding. *)
Definition calls_since {D} (before after : Decoding D) : list DecoderCall :=
  drop (length (calls before)) (calls after).

(** *** Inputs the properties are tried on *)

(** A decoder crafted to match two tags, and one that matches none. *)
Definition two_matches : Decoding CraftedDecoder :=
  fresh {| matching := [62; 60]; content := None |}.
Definition no_match : Decoding CraftedDecoder :=
  fresh {| matching := []; content := None |}.

(** A wire whose next element is not an identifier. *)
Definition foreign_wire : Decoding Wire := fresh [(7, sample_digest)].

(** An identifier object as the constructor leaves it: both fields null. *)
Definition blank_identifier : PublisherID := new_PublisherID.

Definition unrecognized_der : bytes := [Byte.x05].
Definition unrecognized : value :=
  VError "UnrecognizedKeyFormatException" "unrecognized OID".
Definition empty_rsa_key : PublicKey :=
  {| getKeyType := 0; getKeyDer := []; getKeyDer_buffer := [] |}.
Definition forged : bytes := [Byte.x68; Byte.x6a].

Definition ecdsa_request : Request :=
  {| req_buffer := ArgBuffer message;
     req_signature := ArgBlob message;
     req_publicKey := ArgPublicKey ecdsa_key;
     req_digestAlgorithm := VUndefined;
     req_useSync := VUndefined |}.

Definition rsa_request : Request :=
  {| req_buffer := ArgBlob message;
     req_signature := ArgBuffer forged;
     req_publicKey := ArgKeyBuffer [Byte.x00; Byte.x2a];
     req_digestAlgorithm := VBoolean true;
     req_useSync := VUndefined |}.

(** *** Notions and inputs of the further properties *)

(** The text of a list of lines, and of the lines each closed by a newline. *)
Fixpoint flatten (lines : list string) : string :=
  match lines with
  | [] => ""
  | l :: lines' => l ++ flatten lines'
  end.

Definition closed_lines (lines : list string) : string :=
  flatten (map (fun l => l ++ newline) lines).

(** A decoder that matches the certificate tag and then yields no payload. *)
Definition absent_payload : Decoding CraftedDecoder :=
  fresh {| matching := [60]; content := None |}.

(** A wire that starts with a certificate digest. *)
Definition certificate_wire : Decoding Wire := fresh [(60, sample_digest)].

(** A host that binds [id] and [type] to functions that return a number. *)
Definition lenient_host : Host :=
  <["id" := fun _ => Normal (VNumber 1)]>
    (<["type" := fun _ => Normal (VNumber 1)]> ∅).

(** An identifier with a tag and no digest bytes. *)
Definition tag_only_identifier : PublisherID :=
  {| PUBLISHER_ID_DIGEST_ALGORITHM := "SHA-256";
     PUBLISHER_ID_LEN := 32;
     publisherID := None;
     publisherType := Some (new_PublisherType protocol_tags 59) |}.

(** * Properties of the identifier codec *)

(** [find] returns the element at the earliest position that satisfies the
    test. *)
Lemma find_earliest {A} (p : A -> bool) (l : list A) (i : nat) (x : A) :
  l !! i = Some x -> p x = true ->
  exists j y, (j <= i)%nat /\ l !! j = Some y /\ p y = true /\ List.find p l = Some y /\
    forall k z, (k < j)%nat -> l !! k = Some z -> p z = false.
Proof.
  revert i. induction l as [|a l IH]; intros i Hi Hp; [discriminate|].
  destruct (p a) eqn:Hpa.
  - exists 0%nat, a. repeat split; try done; [lia | by simpl; rewrite Hpa | lia].
  - destruct i as [|i]; simpl in Hi.
    + injection Hi as ->. congruence.
    + destruct (IH i Hi Hp) as (j & y & Hle & Hj & Hy & Hfind & Hbefore).
      exists (S j), y. repeat split; try done; [lia | by simpl; rewrite Hpa |].
      intros [|k] z Hk Hz; simpl in Hz; [by injection Hz as <- | eapply Hbefore; [|done]; lia].
Qed.

Lemma find_none {A} (p : A -> bool) (l : list A) :
  (forall x, x ∈ l -> p x = false) -> List.find p l = None.
Proof.
  induction l as [|a l IH]; intros Hall; [done|].
  simpl. rewrite (Hall a) by left. apply IH. intros x Hx. apply Hall. by right.
Qed.

Lemma read_not_among_peeks (tag : Z) (probed : list Z) :
  CallReadBinaryDTagElement tag ∉ map CallPeekDTag probed.
Proof.
  induction probed as [|t probed IH]; simpl; [apply not_elem_of_nil|].
  apply not_elem_of_cons. split; [discriminate | exact IH].
Qed.

Section CodecFacts.
Context (tags : NDNProtocolDTags).
Context {D : Type} `{BinaryXMLDecoder D}.
Context {E : Type} `{BinaryXMLEncoder E}.
Context (host : Host).

(** What [peekAndGetNextDTag] returns and what it leaves behind. *)
Lemma peekAndGetNextDTag_spec (s : Decoding D) :
  peekAndGetNextDTag tags s =
    (default (-1) (List.find (peekDTag (decoder s)) (probe_order tags)),
     {| decoder := decoder s;
        calls := (calls s ++
                  map CallPeekDTag (probes_until (peekDTag (decoder s)) (probe_order tags)))%list |}).
Proof.
  unfold peekAndGetNextDTag, call_peekDTag, probe_order; simpl.
  repeat (match goal with |- context [peekDTag ?d ?t] =>
                            destruct (peekDTag d t) eqn:?; simpl end;
          rewrite <- ?app_assoc; simpl; try reflexivity).
Qed.

(** C2: [peekAndGetNextDTag] probes KEY, CERTIFICATE, ISSUER_KEY,
    ISSUER_CERTIFICATE in this order, stops at the first tag the decoder
    matches and returns it; the decoder is left as it was.  A tag that
    matches is never returned when one earlier in the order matches too,
    and when no tag matches the result is -1. *)
Theorem peekAndGetNextDTag_first_match (s : Decoding D) :
  let matches := peekDTag (decoder s) in
  let result := (peekAndGetNextDTag tags s).1 in
  let s' := (peekAndGetNextDTag tags s).2 in
  result = default (-1) (List.find matches (probe_order tags))
  /\ calls_since s s' = map CallPeekDTag (probes_until matches (probe_order tags))
  /\ decoder s' = decoder s
  /\ (forall i t, probe_order tags !! i = Some t -> matches t = true ->
      exists j, (j <= i)%nat /\ probe_order tags !! j = Some result /\
                matches result = true /\
                forall k t', (k < j)%nat -> probe_order tags !! k = Some t' ->
                             matches t' = false)
  /\ ((forall t, t ∈ probe_order tags -> matches t = false) -> result = -1).
Proof.
  intros matches result s'. subst result s'.
  rewrite peekAndGetNextDTag_spec; cbn [fst snd decoder]. fold matches.
  split; [done|]. split.
  { unfold calls_since; cbn [calls]. by rewrite drop_app_length. }
  split; [done|]. split.
  - intros i t Hi Ht.
    destruct (find_earliest matches _ i t Hi Ht) as (j & y & ? & ? & ? & -> & ?).
    exists j. by cbn [default].
  - intros Hnone. by rewrite find_none.
Qed.

(** C5: when [peekAndGetNextDTag] returns -1, [from_ndnb] throws the
    error "Invalid publisher ID, got unexpected type" and has called
    nothing on the decoder but the probes: no payload is read. *)
Theorem from_ndnb_no_match_is_malformed (this : PublisherID) (s : Decoding D) :
  (peekAndGetNextDTag tags s).1 = -1 ->
  let r := from_ndnb tags host this s in
  completion r = Throw (Error "Invalid publisher ID, got unexpected type")
  /\ decoding_after r = (peekAndGetNextDTag tags s).2
  /\ decoder (decoding_after r) = decoder s
  /\ forall tag, CallReadBinaryDTagElement tag ∉ calls_since s (decoding_after r).
Proof.
  intros Hnone r. subst r. unfold from_ndnb, completion, decoding_after.
  pose proof (peekAndGetNextDTag_spec s) as Hspec.
  destruct (peekAndGetNextDTag tags s) as [nextTag s'].
  cbn [fst] in Hnone. subst nextTag. cbn [fst snd Z.ltb Z.compare].
  split; [done|]. split; [done|].
  apply (f_equal snd) in Hspec. cbn [snd] in Hspec. subst s'.
  split; [done|].
  intros tag. unfold calls_since; cbn [calls]. rewrite drop_app_length.
  apply read_not_among_peeks.
Qed.

(** C10: when [from_ndnb] fails because no tag matched, the object has
    been written all the same: its [publisherType] is a PublisherType of
    tag -1, so an object that held another type (or none) is changed by
    the failed call.  Its [publisherID] is as before. *)
Theorem from_ndnb_failure_overwrites_publisherType (this : PublisherID) (s : Decoding D) :
  (peekAndGetNextDTag tags s).1 = -1 ->
  let r := from_ndnb tags host this s in
  is_Throw (completion r) = true
  /\ publisherType (this_after r) = Some (new_PublisherType tags (-1))
  /\ publisherID (this_after r) = publisherID this
  /\ (publisherType this <> Some (new_PublisherType tags (-1)) -> this_after r <> this).
Proof.
  intros Hnone r. subst r. unfold from_ndnb, completion, this_after.
  destruct (peekAndGetNextDTag tags s) as [nextTag s'].
  simpl in Hnone. subst nextTag. simpl.
  repeat split. intros Hne Heq. apply Hne. by rewrite <- Heq.
Qed.

(** [validate] throws as soon as the host binds no [id]; so does
    [to_ndnb], before it touches the encoder. *)
Lemma validate_unbound_id (this : PublisherID) :
  host !! "id" = None -> validate host this = Throw (ReferenceError "id").
Proof. intros Hid. unfold validate, call_global. by rewrite Hid. Qed.

Lemma to_ndnb_unbound_id (this : PublisherID) (encoder : E) :
  host !! "id" = None ->
  to_ndnb host this encoder = (Throw (ReferenceError "id"), encoder).
Proof. intros Hid. unfold to_ndnb. by rewrite validate_unbound_id. Qed.

End CodecFacts.

(** * Properties of the signature verifier *)

(** The loop of [pem_of_der] stops by its own test: turns beyond
    [length keyBase64 - i] are not used. *)
Lemma pem_lines_turns_suffice (keyBase64 : string) (turns extra i : nat) (keyPem : string) :
  (String.length keyBase64 - i <= turns)%nat ->
  pem_lines (turns + extra) keyBase64 i keyPem = pem_lines turns keyBase64 i keyPem.
Proof.
  revert i keyPem. induction turns as [|turns IH]; intros i keyPem Hle.
  - destruct extra as [|extra]; [reflexivity|]. simpl.
    destruct (Nat.ltb_spec i (String.length keyBase64)); [lia | reflexivity].
  - simpl. destruct (Nat.ltb_spec i (String.length keyBase64)); [|reflexivity].
    apply IH. lia.
Qed.

Lemma since_refl (p : Process) : since p p = [].
Proof. unfold since. by rewrite drop_all. Qed.

Lemma since_app (p : Process) (flag : option bool) (l : list CryptoCall) :
  since p {| verifyUsesString_ := flag; trace := (trace p ++ l)%list |} = l.
Proof. unfold since; simpl. by rewrite drop_app_length. Qed.

Lemma probes_app (p : Process) (flag : option bool) (l : list CryptoCall) :
  probes {| verifyUsesString_ := flag; trace := (trace p ++ l)%list |}
  = (probes p + length (List.filter is_probe l))%nat.
Proof. unfold probes; simpl. by rewrite List.filter_app, length_app. Qed.

Section VerifierFacts.
Context (env : Environment).

(** The [try] block of a synchronous branch: what it yields and the state
    it leaves. *)
Lemma verify_with_spec algorithm buffer signature publicKey p :
  verify_with env algorithm buffer signature publicKey p =
    (SyncPromise_resolve <$>
       run_verifier env algorithm buffer (pem_of_der (getKeyDer publicKey))
         (signatureBytes_for (flag_in_force env p) signature),
     after_sync env algorithm buffer signature publicKey p).
Proof.
  unfold verify_with, run_verifier, after_sync, prepared, flag_in_force,
    probe_calls, backend_uses_string, setVerifyUsesString_.
  unfold mbind, M_bind, mret, M_ret, fmap, Completion_bind, Completion_fmap,
    lift, record, read_verifyUsesString_, write_verifyUsesString_.
  destruct p as [[b|] tr]; cbn;
    destruct (createVerify (Crypto env) algorithm) as [v|ex]; cbn;
    try destruct (update (Crypto env) v buffer) as [v'|ex]; cbn;
    try destruct (verify (Crypto env) v' _ _) as [ok|ex]; cbn;
    rewrite <- ?app_assoc; reflexivity.
Qed.

(** A synchronous branch as a whole: the [catch] turns what the block
    throws into a rejected [SyncPromise]. *)
Lemma try_verify_with_spec algorithm keyType buffer signature publicKey p :
  try_catch (verify_with env algorithm buffer signature publicKey)
    (fun ex => mret (SyncPromise_reject (VerificationEngineError keyType ex))) p =
    (Normal
       match run_verifier env algorithm buffer (pem_of_der (getKeyDer publicKey))
               (signatureBytes_for (flag_in_force env p) signature) with
       | Normal ok => SyncPromise_resolve ok
       | Throw ex => SyncPromise_reject (VerificationEngineError keyType ex)
       end,
     after_sync env algorithm buffer signature publicKey p).
Proof.
  unfold try_catch. rewrite verify_with_spec.
  by destruct (run_verifier _ _ _ _ _).
Qed.

(** The function with its first statements evaluated. *)
Lemma verifySignaturePromise_unfold buffer signature publicKey digestAlgorithm useSync :
  verifySignaturePromise env buffer signature publicKey digestAlgorithm useSync =
    match to_PublicKey env publicKey with
    | Throw ex => mret (SyncPromise_reject (InvalidKey ex))
    | Normal pk =>
        if sha256_in_force env digestAlgorithm then
          if getKeyType pk =? KeyType_RSA (types env) then
            if UseSubtleCrypto env
               && negb (truthy (useSync_in_force digestAlgorithm useSync)) then
              match crypto_subtle env with
              | Some subtle =>
                  import_then_verify subtle (unwrap buffer) (unwrap signature) pk
              | None => lift (Throw (ReferenceError "crypto"))
              end
            else
              try_catch (verify_with env "RSA-SHA256" (unwrap buffer) (unwrap signature) pk)
                (fun ex => mret (SyncPromise_reject (VerificationEngineError "RSA" ex)))
          else if getKeyType pk =? KeyType_ECDSA (types env) then
            try_catch (verify_with env "sha256" (unwrap buffer) (unwrap signature) pk)
              (fun ex => mret (SyncPromise_reject (VerificationEngineError "ECDSA" ex)))
          else mret (SyncPromise_reject UnsupportedKeyType)
        else mret (SyncPromise_reject UnsupportedAlgorithm)
    end.
Proof.
  unfold verifySignaturePromise, shift.
  destruct digestAlgorithm; cbn [typeof_boolean loose_eq_null loose_eq_number
    sha256_in_force useSync_in_force]; rewrite ?Z.eqb_refl; reflexivity.
Qed.

(** The six ways through the function. *)
Lemma verify_key_refused buffer signature k d u p ex :
  to_PublicKey env k = Throw ex ->
  verifySignaturePromise env buffer signature k d u p
  = (Normal (SyncPromise_reject (InvalidKey ex)), p).
Proof. intros Hk. by rewrite verifySignaturePromise_unfold, Hk. Qed.

Lemma verify_digest_refused buffer signature k d u p pk :
  to_PublicKey env k = Normal pk -> sha256_in_force env d = false ->
  verifySignaturePromise env buffer signature k d u p
  = (Normal (SyncPromise_reject UnsupportedAlgorithm), p).
Proof. intros Hk Hd. by rewrite verifySignaturePromise_unfold, Hk, Hd. Qed.

Lemma verify_key_type_refused buffer signature k d u p pk :
  to_PublicKey env k = Normal pk -> sha256_in_force env d = true ->
  getKeyType pk <> KeyType_RSA (types env) -> getKeyType pk <> KeyType_ECDSA (types env) ->
  verifySignaturePromise env buffer signature k d u p
  = (Normal (SyncPromise_reject UnsupportedKeyType), p).
Proof.
  intros Hk Hd Hrsa Hec. rewrite verifySignaturePromise_unfold, Hk, Hd.
  apply Z.eqb_neq in Hrsa, Hec. by rewrite Hrsa, Hec.
Qed.

Lemma verify_engine buffer signature k d u p pk subtle :
  to_PublicKey env k = Normal pk -> sha256_in_force env d = true ->
  getKeyType pk = KeyType_RSA (types env) -> crypto_subtle env = Some subtle ->
  truthy (useSync_in_force d u) = false ->
  verifySignaturePromise env buffer signature k d u p
  = (Normal (AsyncPromise (engine_settlement subtle (unwrap buffer) (unwrap signature) pk)),
     after_import pk p).
Proof.
  intros Hk Hd Hrsa Hsubtle Hsync. rewrite verifySignaturePromise_unfold, Hk, Hd.
  apply Z.eqb_eq in Hrsa. rewrite Hrsa. unfold UseSubtleCrypto.
  by rewrite Hsubtle, Hsync.
Qed.

Lemma verify_rsa_sync buffer signature k d u p pk :
  to_PublicKey env k = Normal pk -> sha256_in_force env d = true ->
  getKeyType pk = KeyType_RSA (types env) ->
  UseSubtleCrypto env && negb (truthy (useSync_in_force d u)) = false ->
  verifySignaturePromise env buffer signature k d u p
  = (Normal
       match run_verifier env "RSA-SHA256" (unwrap buffer) (pem_of_der (getKeyDer pk))
               (signatureBytes_for (flag_in_force env p) (unwrap signature)) with
       | Normal ok => SyncPromise_resolve ok
       | Throw ex => SyncPromise_reject (VerificationEngineError "RSA" ex)
       end,
     after_sync env "RSA-SHA256" (unwrap buffer) (unwrap signature) pk p).
Proof.
  intros Hk Hd Hrsa Hsync. rewrite verifySignaturePromise_unfold, Hk, Hd.
  apply Z.eqb_eq in Hrsa. rewrite Hrsa, Hsync. apply try_verify_with_spec.
Qed.

Lemma verify_ecdsa_sync buffer signature k d u p pk :
  to_PublicKey env k = Normal pk -> sha256_in_force env d = true ->
  getKeyType pk <> KeyType_RSA (types env) -> getKeyType pk = KeyType_ECDSA (types env) ->
  verifySignaturePromise env buffer signature k d u p
  = (Normal
       match run_verifier env "sha256" (unwrap buffer) (pem_of_der (getKeyDer pk))
               (signatureBytes_for (flag_in_force env p) (unwrap signature)) with
       | Normal ok => SyncPromise_resolve ok
       | Throw ex => SyncPromise_reject (VerificationEngineError "ECDSA" ex)
       end,
     after_sync env "sha256" (unwrap buffer) (unwrap signature) pk p).
Proof.
  intros Hk Hd Hrsa Hec. rewrite verifySignaturePromise_unfold, Hk, Hd.
  apply Z.eqb_neq in Hrsa. apply Z.eqb_eq in Hec. rewrite Hrsa, Hec.
  apply try_verify_with_spec.
Qed.

(** Every call returns a promise, and leaves the process as it was, or
    with the import on the trace, or as a synchronous verification
    leaves it. *)
Lemma verify_returns buffer signature k d u p :
  exists promise p',
    verifySignaturePromise env buffer signature k d u p = (Normal promise, p')
    /\ (p' = p
        \/ (exists pk s, p' = after_import pk p /\ promise = AsyncPromise s)
        \/ (exists algorithm pk s,
              p' = after_sync env algorithm (unwrap buffer) (unwrap signature) pk p
              /\ promise = SyncPromise s)).
Proof.
  destruct (to_PublicKey env k) as [pk|ex] eqn:Hk;
    [|by eexists _, _; split; [by apply verify_key_refused | left]].
  destruct (sha256_in_force env d) eqn:Hd;
    [|by eexists _, _; split; [by eapply verify_digest_refused | left]].
  destruct (Z.eq_dec (getKeyType pk) (KeyType_RSA (types env))) as [Hrsa|Hrsa].
  - destruct (UseSubtleCrypto env && negb (truthy (useSync_in_force d u))) eqn:Hsync.
    + apply andb_true_iff in Hsync as [Huse Hsync]. unfold UseSubtleCrypto in Huse.
      destruct (crypto_subtle env) as [subtle|] eqn:Hsubtle; [|discriminate].
      apply negb_true_iff in Hsync.
      eexists _, _; split; [by eapply verify_engine|]. right; left. by eexists _, _.
    + eexists _, _; split; [by eapply verify_rsa_sync|]. right; right.
      exists "RSA-SHA256", pk. destruct (run_verifier _ _ _ _ _); by eexists.
  - destruct (Z.eq_dec (getKeyType pk) (KeyType_ECDSA (types env))) as [Hec|Hec].
    + eexists _, _; split; [by eapply verify_ecdsa_sync|]. right; right.
      exists "sha256", pk. destruct (run_verifier _ _ _ _ _); by eexists.
    + eexists _, _; split; [by eapply verify_key_type_refused | by left].
Qed.

(** *** The cached flag *)

Lemma probes_after_import pk p : probes (after_import pk p) = probes p.
Proof. unfold after_import. rewrite probes_app. simpl. lia. Qed.

Lemma probes_after_sync algorithm buffer signature pk p :
  probes (after_sync env algorithm buffer signature pk p)
  = (probes p + length (probe_calls p))%nat.
Proof.
  unfold after_sync. rewrite probes_app, List.filter_app, length_app.
  unfold probe_calls.
  destruct (verifyUsesString_ p), (is_Throw (prepared env algorithm buffer)); reflexivity.
Qed.

Lemma since_after_sync algorithm buffer signature pk p :
  since p (after_sync env algorithm buffer signature pk p)
  = (probe_calls p ++
     CallCreateVerify algorithm ::
     (if is_Throw (prepared env algorithm buffer) then []
      else [CallVerify (pem_of_der (getKeyDer pk))
              (signatureBytes_for (flag_in_force env p) signature)]))%list.
Proof. apply since_app. Qed.

Lemma createVerify_not_in_probe_calls algorithm p :
  CallCreateVerify algorithm ∉ probe_calls p.
Proof.
  unfold probe_calls. destruct (verifyUsesString_ p); [apply not_elem_of_nil|].
  intros Hin%list_elem_of_singleton. discriminate.
Qed.

Lemma flag_consistent_in_force p :
  flag_consistent env p -> flag_in_force env p = backend_uses_string env.
Proof. unfold flag_in_force. by intros [[-> _]|[-> _]]. Qed.

Lemma flag_consistent_serve r p :
  flag_consistent env p -> flag_consistent env (serve env r p).2.
Proof.
  intros Hp. unfold serve.
  destruct (verify_returns (req_buffer r) (req_signature r) (req_publicKey r)
              (req_digestAlgorithm r) (req_useSync r) p)
    as (promise & p' & -> & [->|[(pk & s & -> & _)|(alg & pk & s & -> & _)]]);
    cbn [snd]; [done| |].
  - unfold flag_consistent. rewrite probes_after_import. exact Hp.
  - unfold flag_consistent. rewrite probes_after_sync.
    cbn [after_sync verifyUsesString_]. rewrite (flag_consistent_in_force p Hp).
    right. unfold probe_calls. destruct Hp as [[-> ->]|[-> ->]]; by split.
Qed.

Lemma flag_consistent_after rs p :
  flag_consistent env p -> flag_consistent env (after env rs p).
Proof.
  revert p. induction rs as [|r rs IH]; intros p Hp; [exact Hp|].
  apply IH. by apply flag_consistent_serve.
Qed.

End VerifierFacts.

Section VerifierClaims.
Context (env : Environment).

(** C4: [verifySignaturePromise] never throws; it returns a promise on
    every input.  A key that does not parse, a digest algorithm that is
    not SHA-256 and a key type that is neither RSA nor ECDSA give a
    rejected SyncPromise; on a synchronous branch an exception of the
    primitive gives a rejected SyncPromise and a boolean of the
    primitive ([false] for a signature that does not verify) a fulfilled
    one; on the engine's branch the promise settles as the engine does. *)
Theorem verifySignaturePromise_never_throws buffer signature k d u p :
  let r := verifySignaturePromise env buffer signature k d u p in
  let useSync := useSync_in_force d u in
  let primitive algorithm pk :=
    run_verifier env algorithm (unwrap buffer) (pem_of_der (getKeyDer pk))
      (signatureBytes_for (flag_in_force env p) (unwrap signature)) in
  (exists promise, r.1 = Normal promise)
  /\ (forall ex, to_PublicKey env k = Throw ex ->
      r.1 = Normal (SyncPromise_reject (InvalidKey ex)))
  /\ (forall pk, to_PublicKey env k = Normal pk ->
      (sha256_in_force env d = false ->
       r.1 = Normal (SyncPromise_reject UnsupportedAlgorithm))
      /\ (sha256_in_force env d = true ->
          (getKeyType pk <> KeyType_RSA (types env) -> getKeyType pk <> KeyType_ECDSA (types env) ->
           r.1 = Normal (SyncPromise_reject UnsupportedKeyType))
          /\ (getKeyType pk = KeyType_RSA (types env) ->
              UseSubtleCrypto env && negb (truthy useSync) = false ->
              (forall ex, primitive "RSA-SHA256" pk = Throw ex ->
                 r.1 = Normal (SyncPromise_reject (VerificationEngineError "RSA" ex)))
              /\ (forall ok, primitive "RSA-SHA256" pk = Normal ok ->
                  r.1 = Normal (SyncPromise_resolve ok)))
          /\ (getKeyType pk <> KeyType_RSA (types env) -> getKeyType pk = KeyType_ECDSA (types env) ->
              (forall ex, primitive "sha256" pk = Throw ex ->
                 r.1 = Normal (SyncPromise_reject (VerificationEngineError "ECDSA" ex)))
              /\ (forall ok, primitive "sha256" pk = Normal ok ->
                  r.1 = Normal (SyncPromise_resolve ok)))
          /\ (getKeyType pk = KeyType_RSA (types env) ->
              forall subtle, crypto_subtle env = Some subtle ->
              truthy useSync = false ->
              r.1 = Normal (AsyncPromise
                              (engine_settlement subtle (unwrap buffer)
                                 (unwrap signature) pk))))).
Proof.
  intros r useSync primitive. subst r useSync primitive. split.
  { destruct (verify_returns env buffer signature k d u p) as (promise & p' & -> & _).
    by exists promise. }
  split.
  { intros ex Hk. by rewrite (verify_key_refused env _ _ _ _ _ _ _ Hk). }
  intros pk Hk. split.
  { intros Hd. by rewrite (verify_digest_refused env _ _ _ _ _ _ _ Hk Hd). }
  intros Hd. repeat split.
  - intros Hrsa Hec. by rewrite (verify_key_type_refused env _ _ _ _ _ _ _ Hk Hd Hrsa Hec).
  - intros ex Hex. rewrite (verify_rsa_sync env _ _ _ _ _ _ _ Hk Hd) by done.
    cbn [fst]. by rewrite Hex.
  - intros ok Hok. rewrite (verify_rsa_sync env _ _ _ _ _ _ _ Hk Hd) by done.
    cbn [fst]. by rewrite Hok.
  - intros ex Hex. rewrite (verify_ecdsa_sync env _ _ _ _ _ _ _ Hk Hd) by done.
    cbn [fst]. by rewrite Hex.
  - intros ok Hok. rewrite (verify_ecdsa_sync env _ _ _ _ _ _ _ Hk Hd) by done.
    cbn [fst]. by rewrite Hok.
  - intros Hrsa subtle Hsubtle Hsync.
    by rewrite (verify_engine env _ _ _ _ _ _ _ _ Hk Hd Hrsa Hsubtle Hsync).
Qed.

(** C6: with a digest algorithm given as a number other than SHA-256, the
    call returns a rejected SyncPromise and the process is as before: no
    backend is called and the flag is not probed.  On a key of any type,
    given as an object or as DER that parses, the rejection is the one for
    an invalid digest algorithm. *)
Theorem verifySignaturePromise_digest_not_sha256 buffer signature k n u p :
  n <> DigestAlgorithm_SHA256 (types env) ->
  let r := verifySignaturePromise env buffer signature k (VNumber n) u p in
  r.2 = p
  /\ (exists reason, r.1 = Normal (SyncPromise_reject reason))
  /\ forall pk, to_PublicKey env k = Normal pk ->
      r = (Normal (SyncPromise_reject UnsupportedAlgorithm), p).
Proof.
  intros Hn r. subst r.
  assert (sha256_in_force env (VNumber n) = false) as Hd by by apply Z.eqb_neq.
  destruct (to_PublicKey env k) as [pk|ex] eqn:Hk.
  - rewrite (verify_digest_refused env _ _ _ _ _ _ _ Hk Hd).
    split; [done|]. split; [by eexists|]. by intros ? [= <-].
  - rewrite (verify_key_refused env _ _ _ _ _ _ _ Hk).
    split; [done|]. split; [by eexists|]. intros ?; discriminate.
Qed.

(** C9: a boolean in the place of [digestAlgorithm] is taken as [useSync],
    and the digest algorithm is SHA-256: the call is the call with
    SHA-256 and that boolean, whatever was passed as [useSync]. *)
Theorem verifySignaturePromise_boolean_shift buffer signature k (b : bool) u p :
  verifySignaturePromise env buffer signature k (VBoolean b) u p
  = verifySignaturePromise env buffer signature k (VNumber (DigestAlgorithm_SHA256 (types env))) (VBoolean b) p.
Proof.
  rewrite !verifySignaturePromise_unfold.
  cbn [sha256_in_force useSync_in_force]. by rewrite Z.eqb_refl.
Qed.

(** C8: the flag is unset when the module is loaded.  A call that runs a
    synchronous verification while the flag is unset probes the backend
    once and sets the flag to the backend's bit; a call that runs none
    leaves the flag and the number of probes alone; once the flag is set
    no call changes it or probes again.  The probe writes the same bit
    from whatever state it is run in.  So after any sequence of calls at
    most one probe was made, the flag is unset or is the backend's bit, and
    every signature handed to the synchronous verifier was put in the form
    that bit asks for. *)
Theorem verifyUsesString_probed_at_most_once :
  let bit := backend_uses_string env in
  verifyUsesString_ initial = None
  /\ (forall r p, verifyUsesString_ p = None ->
      (exists algorithm, CallCreateVerify algorithm ∈ since p (serve env r p).2) ->
      verifyUsesString_ (serve env r p).2 = Some bit
      /\ probes (serve env r p).2 = S (probes p))
  /\ (forall r p,
      (forall algorithm, CallCreateVerify algorithm ∉ since p (serve env r p).2) ->
      verifyUsesString_ (serve env r p).2 = verifyUsesString_ p
      /\ probes (serve env r p).2 = probes p)
  /\ (forall r p b, verifyUsesString_ p = Some b ->
      verifyUsesString_ (serve env r p).2 = Some b
      /\ probes (serve env r p).2 = probes p)
  /\ (forall p,
      verifyUsesString_ (setVerifyUsesString_ env p).2 = Some bit
      /\ verifyUsesString_
           (setVerifyUsesString_ env (setVerifyUsesString_ env p).2).2 = Some bit)
  /\ (forall rs,
      (probes (after env rs initial) <= 1)%nat
      /\ (verifyUsesString_ (after env rs initial) = None
          \/ verifyUsesString_ (after env rs initial) = Some bit))
  /\ (forall rs r keyPem signatureBytes,
      CallVerify keyPem signatureBytes
        ∈ since (after env rs initial) (serve env r (after env rs initial)).2 ->
      signatureBytes = signatureBytes_for bit (unwrap (req_signature r))).
Proof.
  intros bit. subst bit. split; [done|]. split; [|split; [|split; [|split; [|split]]]].
  - intros r p Hp [algorithm Hin]. revert Hin. unfold serve.
    destruct (verify_returns env (req_buffer r) (req_signature r) (req_publicKey r)
                (req_digestAlgorithm r) (req_useSync r) p)
      as (promise & p' & -> & [->|[(pk & s & -> & _)|(alg & pk & s & -> & _)]]);
      cbn [snd].
    + rewrite since_refl. by intros ?%not_elem_of_nil.
    + unfold after_import. rewrite since_app. intros ?%list_elem_of_singleton. discriminate.
    + intros _. rewrite probes_after_sync. cbn [after_sync verifyUsesString_].
      unfold flag_in_force, probe_calls. rewrite Hp. cbn [length]. split; [done|lia].
  - intros r p. unfold serve.
    destruct (verify_returns env (req_buffer r) (req_signature r) (req_publicKey r)
                (req_digestAlgorithm r) (req_useSync r) p)
      as (promise & p' & -> & [->|[(pk & s & -> & _)|(alg & pk & s & -> & _)]]);
      cbn [snd]; intros Hnone.
    + done.
    + by rewrite probes_after_import.
    + exfalso. apply (Hnone alg). rewrite since_after_sync.
      apply elem_of_app. right. by left.
  - intros r p b Hp. unfold serve.
    destruct (verify_returns env (req_buffer r) (req_signature r) (req_publicKey r)
                (req_digestAlgorithm r) (req_useSync r) p)
      as (promise & p' & -> & [->|[(pk & s & -> & _)|(alg & pk & s & -> & _)]]);
      cbn [snd].
    + done.
    + by rewrite probes_after_import.
    + rewrite probes_after_sync. cbn [after_sync verifyUsesString_].
      unfold flag_in_force, probe_calls. rewrite Hp. cbn [length]. split; [done|lia].
  - done.
  - intros rs.
    assert (flag_consistent env (after env rs initial)) as [[-> ->]|[-> ->]]
      by (apply flag_consistent_after; by left).
    + split; [lia | by left].
    + split; [lia | by right].
  - intros rs r keyPem signatureBytes.
    assert (flag_consistent env (after env rs initial)) as Hinv
      by (apply flag_consistent_after; by left).
    apply flag_consistent_in_force in Hinv.
    generalize dependent (after env rs initial). intros p Hforce. unfold serve.
    destruct (verify_returns env (req_buffer r) (req_signature r) (req_publicKey r)
                (req_digestAlgorithm r) (req_useSync r) p)
      as (promise & p' & -> & [->|[(pk & s & -> & _)|(alg & pk & s & -> & _)]]);
      cbn [snd].
    + rewrite since_refl. by intros ?%not_elem_of_nil.
    + unfold after_import. rewrite since_app. intros ?%list_elem_of_singleton. discriminate.
    + rewrite since_after_sync, Hforce.
      intros [Hin|Hin]%elem_of_app.
      * unfold probe_calls in Hin. destruct (verifyUsesString_ p).
        -- by apply not_elem_of_nil in Hin.
        -- apply list_elem_of_singleton in Hin. discriminate.
      * apply elem_of_cons in Hin as [?|Hin]; [discriminate|].
        destruct (is_Throw _).
        -- by apply not_elem_of_nil in Hin.
        -- apply list_elem_of_singleton in Hin. by injection Hin as _ ->.
Qed.

End VerifierClaims.

(** * The properties on concrete inputs *)

(** C1 (the code departs from it): encoding a valid identifier, digest
    bytes under any tag, throws the ReferenceError of [validate] and writes
    nothing; so it is for the key digest of 32 bytes under the tag KEY, and
    what is decoded from the wire that encoding leaves is no identifier. *)
Theorem to_ndnb_valid_identifier_throws :
  (forall (tag : Z) (digest : bytes) (w : Wire),
     to_ndnb bare_host
       {| PUBLISHER_ID_DIGEST_ALGORITHM := "SHA-256";
          PUBLISHER_ID_LEN := 32;
          publisherID := Some digest;
          publisherType := Some (new_PublisherType protocol_tags tag) |} w
     = (Throw (ReferenceError "id"), w))
  /\ to_ndnb bare_host key_identifier ([] : Wire) = (Throw (ReferenceError "id"), [])
  /\ completion (from_ndnb protocol_tags bare_host blank_identifier (fresh ([] : Wire)))
     = Throw (Error "Invalid publisher ID, got unexpected type").
Proof.
  split; [intros tag digest w; by apply to_ndnb_unbound_id|].
  split; [by apply to_ndnb_unbound_id | reflexivity].
Qed.

(** C3 (the code departs from it): on an identifier with a null tag or null
    digest bytes [to_ndnb] writes nothing, but what it throws is the
    ReferenceError of [validate], not the error that tells of missing field
    values. *)
Theorem to_ndnb_null_fields_throws_ReferenceError (this : PublisherID) (w : Wire) :
  publisherType this = None \/ publisherID this = None ->
  to_ndnb bare_host this w = (Throw (ReferenceError "id"), w)
  /\ ~ missing_field_values (ReferenceError "id").
Proof.
  intros _. split; [by apply to_ndnb_unbound_id|].
  intros [class Hclass]. discriminate Hclass.
Qed.

Lemma to_ndnb_null_fields_throws_ReferenceError_witness :
  (publisherType blank_identifier = None \/ publisherID blank_identifier = None)
  /\ to_ndnb bare_host blank_identifier ([] : Wire) = (Throw (ReferenceError "id"), [])
  /\ ~ missing_field_values (ReferenceError "id").
Proof.
  split; [left; reflexivity|].
  apply (to_ndnb_null_fields_throws_ReferenceError blank_identifier []).
  left; reflexivity.
Defined.

Lemma peekAndGetNextDTag_first_match_witness :
  (probe_order protocol_tags !! 3%nat = Some 62
   /\ peekDTag (decoder two_matches) 62 = true
   /\ exists j, (j <= 3)%nat
        /\ probe_order protocol_tags !! j = Some (peekAndGetNextDTag protocol_tags two_matches).1
        /\ peekDTag (decoder two_matches) (peekAndGetNextDTag protocol_tags two_matches).1 = true
        /\ forall k t', (k < j)%nat -> probe_order protocol_tags !! k = Some t' ->
                        peekDTag (decoder two_matches) t' = false)
  /\ ((forall t, t ∈ probe_order protocol_tags -> peekDTag (decoder no_match) t = false)
      /\ (peekAndGetNextDTag protocol_tags no_match).1 = -1).
Proof.
  split.
  - split; [reflexivity|]. split; [reflexivity|].
    destruct (peekAndGetNextDTag_first_match protocol_tags two_matches)
      as (_ & _ & _ & Hearliest & _).
    apply (Hearliest 3%nat 62); reflexivity.
  - split; [intros t _; reflexivity|].
    destruct (peekAndGetNextDTag_first_match protocol_tags no_match)
      as (_ & _ & _ & _ & Hnone).
    apply Hnone. intros t _; reflexivity.
Defined.

Lemma from_ndnb_no_match_is_malformed_witness :
  (peekAndGetNextDTag protocol_tags foreign_wire).1 = -1
  /\ completion (from_ndnb protocol_tags bare_host blank_identifier foreign_wire)
     = Throw (Error "Invalid publisher ID, got unexpected type")
  /\ decoder (decoding_after (from_ndnb protocol_tags bare_host blank_identifier foreign_wire))
     = decoder foreign_wire.
Proof.
  assert ((peekAndGetNextDTag protocol_tags foreign_wire).1 = -1) as Hnone by reflexivity.
  split; [exact Hnone|].
  destruct (from_ndnb_no_match_is_malformed protocol_tags bare_host blank_identifier
              foreign_wire Hnone) as (Hthrow & _ & Hsame & _).
  split; [exact Hthrow | exact Hsame].
Defined.

Lemma from_ndnb_failure_overwrites_publisherType_witness :
  (peekAndGetNextDTag protocol_tags foreign_wire).1 = -1
  /\ publisherType key_identifier <> Some (new_PublisherType protocol_tags (-1))
  /\ publisherType (this_after (from_ndnb protocol_tags bare_host key_identifier foreign_wire))
     = Some (new_PublisherType protocol_tags (-1))
  /\ this_after (from_ndnb protocol_tags bare_host key_identifier foreign_wire)
     <> key_identifier.
Proof.
  assert ((peekAndGetNextDTag protocol_tags foreign_wire).1 = -1) as Hnone by reflexivity.
  split; [exact Hnone|].
  assert (publisherType key_identifier <> Some (new_PublisherType protocol_tags (-1)))
    as Hne by discriminate.
  split; [exact Hne|].
  destruct (from_ndnb_failure_overwrites_publisherType protocol_tags bare_host key_identifier
              foreign_wire Hnone) as (_ & Htype & _ & Hchanged).
  split; [exact Htype | exact (Hchanged Hne)].
Defined.

Lemma verifySignaturePromise_never_throws_witness :
  (to_PublicKey node_env (ArgKeyBuffer unrecognized_der) = Throw unrecognized
   /\ (verifySignaturePromise node_env (ArgBuffer message) (ArgBuffer message)
         (ArgKeyBuffer unrecognized_der) VUndefined VUndefined initial).1
      = Normal (SyncPromise_reject (InvalidKey unrecognized)))
  /\ (sha256_in_force node_env (VNumber 2) = false
      /\ (verifySignaturePromise node_env (ArgBuffer message) (ArgBuffer message)
            (ArgPublicKey rsa_key) (VNumber 2) VUndefined initial).1
         = Normal (SyncPromise_reject UnsupportedAlgorithm))
  /\ (getKeyType aes_key <> 0 /\ getKeyType aes_key <> 1
      /\ (verifySignaturePromise node_env (ArgBuffer message) (ArgBuffer message)
            (ArgPublicKey aes_key) VUndefined VUndefined initial).1
         = Normal (SyncPromise_reject UnsupportedKeyType))
  /\ (verifySignaturePromise node_env (ArgBuffer message) (ArgBuffer message)
        (ArgPublicKey empty_rsa_key) VUndefined VUndefined initial).1
     = Normal (SyncPromise_reject
                 (VerificationEngineError "RSA" (Error "PEM routines: no start line")))
  /\ (verifySignaturePromise node_env (ArgBuffer message) (ArgBuffer forged)
        (ArgPublicKey rsa_key) VUndefined VUndefined initial).1
     = Normal (SyncPromise_resolve false)
  /\ (verifySignaturePromise browser_env (ArgBuffer message) (ArgBuffer forged)
        (ArgPublicKey ecdsa_key) VUndefined VUndefined initial).1
     = Normal (SyncPromise_resolve false)
  /\ (verifySignaturePromise browser_env (ArgBuffer message) (ArgBuffer forged)
        (ArgPublicKey rsa_key) VUndefined VUndefined initial).1
     = Normal (AsyncPromise (Fulfilled false)).
Proof.
  split.
  { split; [reflexivity|].
    pose proof (verifySignaturePromise_never_throws node_env (ArgBuffer message)
                  (ArgBuffer message) (ArgKeyBuffer unrecognized_der) VUndefined VUndefined
                  initial) as Hall.
    cbv zeta in Hall. destruct Hall as (_ & Hkey & _).
    exact (Hkey unrecognized eq_refl). }
  split.
  { split; [reflexivity|].
    pose proof (verifySignaturePromise_never_throws node_env (ArgBuffer message)
                  (ArgBuffer message) (ArgPublicKey rsa_key) (VNumber 2) VUndefined
                  initial) as Hall.
    cbv zeta in Hall. destruct Hall as (_ & _ & Hparsed).
    destruct (Hparsed rsa_key eq_refl) as (Hdigest & _).
    exact (Hdigest eq_refl). }
  split.
  { assert (getKeyType aes_key <> 0) as Hrsa by discriminate.
    assert (getKeyType aes_key <> 1) as Hec by discriminate.
    split; [exact Hrsa|]. split; [exact Hec|].
    pose proof (verifySignaturePromise_never_throws node_env (ArgBuffer message)
                  (ArgBuffer message) (ArgPublicKey aes_key) VUndefined VUndefined
                  initial) as Hall.
    cbv zeta in Hall. destruct Hall as (_ & _ & Hparsed).
    destruct (Hparsed aes_key eq_refl) as (_ & Hsha).
    destruct (Hsha eq_refl) as (Hother & _).
    exact (Hother Hrsa Hec). }
  split.
  { pose proof (verifySignaturePromise_never_throws node_env (ArgBuffer message)
                  (ArgBuffer message) (ArgPublicKey empty_rsa_key) VUndefined VUndefined
                  initial) as Hall.
    cbv zeta in Hall. destruct Hall as (_ & _ & Hparsed).
    destruct (Hparsed empty_rsa_key eq_refl) as (_ & Hsha).
    destruct (Hsha eq_refl) as (_ & Hrsa & _).
    destruct (Hrsa eq_refl eq_refl) as (Hthrows & _).
    exact (Hthrows (Error "PEM routines: no start line") eq_refl). }
  split.
  { pose proof (verifySignaturePromise_never_throws node_env (ArgBuffer message)
                  (ArgBuffer forged) (ArgPublicKey rsa_key) VUndefined VUndefined
                  initial) as Hall.
    cbv zeta in Hall. destruct Hall as (_ & _ & Hparsed).
    destruct (Hparsed rsa_key eq_refl) as (_ & Hsha).
    destruct (Hsha eq_refl) as (_ & Hrsa & _).
    destruct (Hrsa eq_refl eq_refl) as (_ & Hreturns).
    exact (Hreturns false eq_refl). }
  split.
  { assert (getKeyType ecdsa_key <> KeyType_RSA (types browser_env)) as Hne by discriminate.
    pose proof (verifySignaturePromise_never_throws browser_env (ArgBuffer message)
                  (ArgBuffer forged) (ArgPublicKey ecdsa_key) VUndefined VUndefined
                  initial) as Hall.
    cbv zeta in Hall. destruct Hall as (_ & _ & Hparsed).
    destruct (Hparsed ecdsa_key eq_refl) as (_ & Hsha).
    destruct (Hsha eq_refl) as (_ & _ & Hecdsa & _).
    destruct (Hecdsa Hne eq_refl) as (_ & Hreturns).
    exact (Hreturns false eq_refl). }
  pose proof (verifySignaturePromise_never_throws browser_env (ArgBuffer message)
                (ArgBuffer forged) (ArgPublicKey rsa_key) VUndefined VUndefined
                initial) as Hall.
  cbv zeta in Hall. destruct Hall as (_ & _ & Hparsed).
  destruct (Hparsed rsa_key eq_refl) as (_ & Hsha).
  destruct (Hsha eq_refl) as (_ & _ & _ & Hengine).
  exact (Hengine eq_refl test_subtle eq_refl eq_refl).
Defined.

Lemma verifySignaturePromise_digest_not_sha256_witness :
  2 <> DigestAlgorithm_SHA256 (types node_env)
  /\ to_PublicKey node_env (ArgKeyBuffer [Byte.x01; Byte.x2a]) = Normal ecdsa_key
  /\ verifySignaturePromise node_env (ArgBuffer message) (ArgBuffer message)
       (ArgKeyBuffer [Byte.x01; Byte.x2a]) (VNumber 2) (VBoolean true) initial
     = (Normal (SyncPromise_reject UnsupportedAlgorithm), initial).
Proof.
  assert (2 <> DigestAlgorithm_SHA256 (types node_env)) as Hn by discriminate.
  split; [exact Hn|]. split; [reflexivity|].
  pose proof (verifySignaturePromise_digest_not_sha256 node_env (ArgBuffer message)
                (ArgBuffer message) (ArgKeyBuffer [Byte.x01; Byte.x2a]) 2 (VBoolean true)
                initial Hn) as Hall.
  cbv zeta in Hall. destruct Hall as (_ & _ & Hparsed).
  exact (Hparsed ecdsa_key eq_refl).
Defined.

Lemma verifyUsesString_probed_at_most_once_witness :
  (verifyUsesString_ initial = None
   /\ (exists algorithm,
         CallCreateVerify algorithm ∈ since initial (serve node_env ecdsa_request initial).2)
   /\ verifyUsesString_ (serve node_env ecdsa_request initial).2
      = Some (backend_uses_string node_env)
   /\ probes (serve node_env ecdsa_request initial).2 = 1%nat)
  /\ (verifyUsesString_ (serve node_env ecdsa_request initial).2 = Some false
      /\ verifyUsesString_
           (serve node_env rsa_request (serve node_env ecdsa_request initial).2).2
         = Some false
      /\ probes (serve node_env rsa_request (serve node_env ecdsa_request initial).2).2
         = probes (serve node_env ecdsa_request initial).2)
  /\ (probes (after node_env [ecdsa_request; rsa_request; ecdsa_request] initial) <= 1)%nat.
Proof.
  pose proof (verifyUsesString_probed_at_most_once node_env) as Hall.
  cbv zeta in Hall.
  destruct Hall as (_ & Hfirst & _ & Hlater & _ & Hmany & _).
  assert (exists algorithm,
            CallCreateVerify algorithm ∈ since initial (serve node_env ecdsa_request initial).2)
    as Hsync.
  { exists "sha256". apply list_elem_of_further, list_elem_of_here. }
  split.
  { split; [reflexivity|]. split; [exact Hsync|].
    exact (Hfirst ecdsa_request initial eq_refl Hsync). }
  split.
  { assert (verifyUsesString_ (serve node_env ecdsa_request initial).2 = Some false)
      as Hset by reflexivity.
    split; [exact Hset|].
    exact (Hlater rsa_request _ false Hset). }
  exact (proj1 (Hmany [ecdsa_request; rsa_request; ecdsa_request])).
Defined.

(** * Further properties of the identifier codec *)

Section CodecMore.
Context (tags : NDNProtocolDTags).
Context {D : Type} `{BinaryXMLDecoder D}.
Context {E : Type} `{BinaryXMLEncoder E}.
Context (host : Host).

(** The tag the lookahead settles on is -1 or a tag of the four that the
    decoder matches. *)
Lemma peekAndGetNextDTag_result (s : Decoding D) :
  (peekAndGetNextDTag tags s).1 = -1
  \/ ((peekAndGetNextDTag tags s).1 ∈ probe_order tags
      /\ peekDTag (decoder s) (peekAndGetNextDTag tags s).1 = true).
Proof.
  rewrite peekAndGetNextDTag_spec; cbn [fst].
  destruct (List.find _ _) as [t|] eqn:Hfind; [right | by left].
  apply List.find_some in Hfind as [Hin Ht]. by apply list_elem_of_In in Hin.
Qed.

(** The statement that throws the ContentDecodingException never completes. *)
Lemma throw_ContentDecodingException_throws {A} (msg : string) :
  exists ex, @throw_ContentDecodingException host A msg = Throw ex.
Proof.
  unfold throw_ContentDecodingException.
  destruct (call_global host "ContentDecodingException" [Error msg]); by eexists.
Qed.

(** [from_ndnb] with the lookahead evaluated. *)
Lemma from_ndnb_unfold (this : PublisherID) (s : Decoding D) :
  from_ndnb tags host this s =
    let t := (peekAndGetNextDTag tags s).1 in
    let probed := {| decoder := decoder s;
                     calls := (calls s ++ map CallPeekDTag
                                 (probes_until (peekDTag (decoder s)) (probe_order tags)))%list |} in
    let this1 := set_publisherType this (Some (new_PublisherType tags t)) in
    if t <? 0 then
      (Throw (Error "Invalid publisher ID, got unexpected type"), this1, probed)
    else
      let after_read :=
        {| decoder := (readBinaryDTagElement (decoder s) t).2;
           calls := (calls probed ++ [CallReadBinaryDTagElement t])%list |} in
      match (readBinaryDTagElement (decoder s) t).1 with
      | Throw ex => (Throw ex, this1, after_read)
      | Normal payload =>
          (match payload with
           | None =>
               throw_ContentDecodingException host
                 ("Cannot parse publisher ID of type : " ++ toString (VNumber t) ++ ".")
           | Some _ => Normal tt
           end,
           set_publisherID this1 payload, after_read)
      end.
Proof.
  unfold from_ndnb. rewrite peekAndGetNextDTag_spec. cbn [fst snd].
  destruct (_ <? 0); [reflexivity|].
  unfold call_readBinaryDTagElement. cbn [decoder calls].
  destruct (readBinaryDTagElement _ _) as [[payload|ex] d']; cbn [fst snd];
    [by destruct payload | reflexivity].
Qed.

(** X1: [from_ndnb] returns exactly when the lookahead settles on a tag that
    is not negative and the decoder yields a payload for it.  It has then
    probed, read once under that tag, and left in the object a
    PublisherType of that tag, one of the four, and the payload. *)
Theorem from_ndnb_returns_iff (this : PublisherID) (s : Decoding D) :
  let t := (peekAndGetNextDTag tags s).1 in
  let r := from_ndnb tags host this s in
  (completion r = Normal tt <->
     0 <= t /\ exists payload, (readBinaryDTagElement (decoder s) t).1 = Normal (Some payload))
  /\ (completion r = Normal tt ->
      t ∈ probe_order tags
      /\ peekDTag (decoder s) t = true
      /\ publisherType (this_after r) = Some (new_PublisherType tags t)
      /\ (readBinaryDTagElement (decoder s) t).1 = Normal (publisherID (this_after r))
      /\ is_Some (publisherID (this_after r))
      /\ decoder (decoding_after r) = (readBinaryDTagElement (decoder s) t).2
      /\ calls_since s (decoding_after r)
         = (map CallPeekDTag (probes_until (peekDTag (decoder s)) (probe_order tags))
            ++ [CallReadBinaryDTagElement t])%list).
Proof.
  intros t r. subst r. rewrite from_ndnb_unfold. cbv zeta. fold t.
  unfold completion, this_after, decoding_after, calls_since.
  pose proof (peekAndGetNextDTag_result s) as Hresult. fold t in Hresult.
  destruct (Z.ltb_spec t 0) as [Hneg|Hpos]; cbn [fst snd].
  { split; [|discriminate]. split; [discriminate | intros [? _]; lia]. }
  destruct (readBinaryDTagElement (decoder s) t) as [[[payload|]|ex] d']; cbn [fst snd].
  - split; [split; [by eauto | done]|]. intros _.
    destruct Hresult as [Hminus|[Hin Hmatch]]; [lia|].
    repeat split; try done. cbn [calls]. by rewrite <- app_assoc, drop_app_length.
  - destruct (throw_ContentDecodingException_throws (A:=unit)
                ("Cannot parse publisher ID of type : " ++ toString (VNumber t) ++ "."))
      as [ex ->].
    split; [|discriminate]. split; [discriminate | intros [_ [? ?]]; discriminate].
  - split; [|discriminate]. split; [discriminate | intros [_ [? ?]]; discriminate].
Qed.

(** X2: when a tag matches and the decoder yields no payload for it,
    [from_ndnb] throws; by then the decoder has been read, the object holds
    the PublisherType of the tag, and its digest bytes have been overwritten
    with null.  The module binds no [ContentDecodingException]: in a host
    that does not either, what is thrown is a ReferenceError. *)
Theorem from_ndnb_absent_payload (this : PublisherID) (s : Decoding D) :
  let t := (peekAndGetNextDTag tags s).1 in
  let r := from_ndnb tags host this s in
  0 <= t ->
  (readBinaryDTagElement (decoder s) t).1 = Normal None ->
  is_Throw (completion r) = true
  /\ publisherID (this_after r) = None
  /\ publisherType (this_after r) = Some (new_PublisherType tags t)
  /\ decoder (decoding_after r) = (readBinaryDTagElement (decoder s) t).2
  /\ CallReadBinaryDTagElement t ∈ calls_since s (decoding_after r)
  /\ (host !! "ContentDecodingException" = None ->
      completion r = Throw (ReferenceError "ContentDecodingException")).
Proof.
  intros t r Hpos Hread. subst r. rewrite from_ndnb_unfold. cbv zeta. fold t.
  unfold completion, this_after, decoding_after, calls_since.
  destruct (Z.ltb_spec t 0) as [Hneg|_]; [lia|]. rewrite Hread. cbn [fst snd].
  split.
  { by destruct (throw_ContentDecodingException_throws (A:=unit)
                   ("Cannot parse publisher ID of type : " ++ toString (VNumber t) ++ "."))
      as [ex ->]. }
  repeat split.
  - cbn [calls]. rewrite <- app_assoc, drop_app_length.
    apply elem_of_app. right. by left.
  - intros Hunbound. unfold throw_ContentDecodingException, call_global.
    by rewrite Hunbound.
Qed.

(** The outcome of [from_ndnb] depends on the decoder, not on the calls made
    before. *)
Lemma from_ndnb_decoder_only (this : PublisherID) (s1 s2 : Decoding D) :
  decoder s1 = decoder s2 ->
  completion (from_ndnb tags host this s1) = completion (from_ndnb tags host this s2)
  /\ this_after (from_ndnb tags host this s1) = this_after (from_ndnb tags host this s2)
  /\ decoder (decoding_after (from_ndnb tags host this s1))
     = decoder (decoding_after (from_ndnb tags host this s2)).
Proof.
  intros Hdec. rewrite !from_ndnb_unfold. cbv zeta.
  rewrite !peekAndGetNextDTag_spec. cbn [fst]. rewrite Hdec.
  unfold completion, this_after, decoding_after.
  destruct (_ <? 0); [done|].
  destruct (readBinaryDTagElement _ _) as [[payload|ex] d']; done.
Qed.

(** X3: [peek] leaves the decoder as it was and tells whether the lookahead
    found a tag that is not negative; with a tag table without negative
    entries that is: whether the decoder matches one of the four tags. *)
Theorem peek_iff_a_tag_matches (s : Decoding D) :
  (forall t, t ∈ probe_order tags -> 0 <= t) ->
  decoder (peek tags s).2 = decoder s
  /\ ((peek tags s).1 = true <->
      exists t, t ∈ probe_order tags /\ peekDTag (decoder s) t = true).
Proof.
  intros Hnonneg. unfold peek. rewrite peekAndGetNextDTag_spec. cbn [fst snd decoder].
  split; [done|].
  destruct (List.find (peekDTag (decoder s)) (probe_order tags)) as [x|] eqn:Hfind;
    cbn [default].
  - apply List.find_some in Hfind as [Hx Hmatch]. apply list_elem_of_In in Hx.
    split; [by exists x|]. intros _. apply Z.leb_le. by apply Hnonneg.
  - split; [discriminate|]. intros (t & Hin & Hmatch).
    apply list_elem_of_In in Hin.
    by rewrite (List.find_none _ _ Hfind t Hin) in Hmatch.
Qed.

Lemma peek_fst (s : Decoding D) :
  (peek tags s).1 = (0 <=? (peekAndGetNextDTag tags s).1).
Proof. unfold peek. by destruct (peekAndGetNextDTag tags s). Qed.

Lemma peek_decoder (s : Decoding D) : decoder (peek tags s).2 = decoder s.
Proof. unfold peek. by rewrite peekAndGetNextDTag_spec. Qed.

(** X4: [peek] tells beforehand whether [from_ndnb] reads from the decoder:
    [from_ndnb] calls [readBinaryDTagElement] exactly when [peek] is true, and
    then once, under the tag the lookahead settled on. *)
Theorem peek_decides_read (this : PublisherID) (s : Decoding D) :
  let r := from_ndnb tags host this s in
  ((peek tags s).1 = true <->
     exists t, CallReadBinaryDTagElement t ∈ calls_since s (decoding_after r))
  /\ ((peek tags s).1 = true ->
      calls_since s (decoding_after r)
      = (map CallPeekDTag (probes_until (peekDTag (decoder s)) (probe_order tags))
         ++ [CallReadBinaryDTagElement (peekAndGetNextDTag tags s).1])%list).
Proof.
  intros r. subst r. rewrite peek_fst, from_ndnb_unfold. cbv zeta.
  unfold decoding_after, calls_since.
  set (t := (peekAndGetNextDTag tags s).1).
  destruct (Z.ltb_spec t 0) as [Hneg|Hpos].
  - cbn [snd calls]. rewrite drop_app_length.
    assert ((0 <=? t) = false) as -> by by apply Z.leb_gt.
    split; [|discriminate]. split; [discriminate|].
    intros [t' Hin]. by apply read_not_among_peeks in Hin.
  - assert ((0 <=? t) = true) as -> by by apply Z.leb_le.
    destruct (readBinaryDTagElement (decoder s) t) as [[payload|ex] d'];
      cbn [fst snd calls]; rewrite <- app_assoc, drop_app_length;
      (split; [|done]; split; [|done]; intros _; exists t;
       apply elem_of_app; right; by left).
Qed.

(** X5: a [peek] before [from_ndnb] changes nothing: the completion, the
    object and the decoder are those of [from_ndnb] alone, and a second
    [peek] answers as the first. *)
Theorem from_ndnb_after_peek (this : PublisherID) (s : Decoding D) :
  completion (from_ndnb tags host this (peek tags s).2)
  = completion (from_ndnb tags host this s)
  /\ this_after (from_ndnb tags host this (peek tags s).2)
     = this_after (from_ndnb tags host this s)
  /\ decoder (decoding_after (from_ndnb tags host this (peek tags s).2))
     = decoder (decoding_after (from_ndnb tags host this s))
  /\ (peek tags (peek tags s).2).1 = (peek tags s).1.
Proof.
  destruct (from_ndnb_decoder_only this (peek tags s).2 s (peek_decoder s))
    as (Hc & Ht & Hd).
  repeat split; try done.
  rewrite !peek_fst, !peekAndGetNextDTag_spec. cbn [fst]. by rewrite peek_decoder.
Qed.

(** X6: [to_ndnb] touches the encoder in one place only: it fails with the
    encoder as it was, or [validate] returned true, the object has a
    PublisherType, and all that happens to the encoder is the one
    [writeDTagElement] of the type's tag and the object's digest bytes. *)
Theorem to_ndnb_single_write (this : PublisherID) (encoder : E) :
  (exists ex, to_ndnb host this encoder = (Throw ex, encoder))
  \/ (validate host this = Normal true
      /\ exists t, publisherType this = Some t
           /\ to_ndnb host this encoder
              = writeDTagElement encoder (Tag t) (publisherID this)).
Proof.
  unfold to_ndnb, getElementLabel.
  destruct (validate host this) as [[|]|ex]; [|left; by eexists..].
  destruct (publisherType this) as [t|]; [right | left; by eexists].
  split; [done|]. by exists t.
Qed.

(** X7: an identifier without a PublisherType is never encoded, whatever the
    host binds: [to_ndnb] throws and the encoder is as it was. *)
Theorem to_ndnb_null_type_fails (this : PublisherID) (encoder : E) :
  publisherType this = None ->
  exists ex, to_ndnb host this encoder = (Throw ex, encoder).
Proof.
  intros Hnull. unfold to_ndnb, getElementLabel. rewrite Hnull.
  destruct (validate host this) as [[|]|ex]; by eexists.
Qed.

End CodecMore.

Lemma from_ndnb_returns_iff_witness :
  (0 <= (peekAndGetNextDTag protocol_tags certificate_wire).1
   /\ exists payload,
       (readBinaryDTagElement (decoder certificate_wire)
          (peekAndGetNextDTag protocol_tags certificate_wire).1).1 = Normal (Some payload))
  /\ completion (from_ndnb protocol_tags bare_host blank_identifier certificate_wire)
     = Normal tt
  /\ publisherType
       (this_after (from_ndnb protocol_tags bare_host blank_identifier certificate_wire))
     = Some (new_PublisherType protocol_tags
               (peekAndGetNextDTag protocol_tags certificate_wire).1)
  /\ is_Some (publisherID
                (this_after (from_ndnb protocol_tags bare_host blank_identifier
                               certificate_wire))).
Proof.
  pose proof (from_ndnb_returns_iff protocol_tags bare_host blank_identifier
                certificate_wire) as Hall.
  cbv zeta in Hall. destruct Hall as (Hiff & Hpost).
  assert (0 <= (peekAndGetNextDTag protocol_tags certificate_wire).1
          /\ exists payload,
              (readBinaryDTagElement (decoder certificate_wire)
                 (peekAndGetNextDTag protocol_tags certificate_wire).1).1
              = Normal (Some payload)) as Hpre.
  { split; [discriminate | by exists sample_digest]. }
  split; [exact Hpre|].
  pose proof (proj2 Hiff Hpre) as Hreturns.
  destruct (Hpost Hreturns) as (_ & _ & Htype & _ & Hsome & _).
  split; [exact Hreturns|]. split; [exact Htype | exact Hsome].
Defined.

Lemma from_ndnb_absent_payload_witness :
  0 <= (peekAndGetNextDTag protocol_tags absent_payload).1
  /\ (readBinaryDTagElement (decoder absent_payload)
        (peekAndGetNextDTag protocol_tags absent_payload).1).1 = Normal None
  /\ bare_host !! "ContentDecodingException" = None
  /\ completion (from_ndnb protocol_tags bare_host key_identifier absent_payload)
     = Throw (ReferenceError "ContentDecodingException")
  /\ publisherID (this_after (from_ndnb protocol_tags bare_host key_identifier absent_payload))
     = None.
Proof.
  assert (0 <= (peekAndGetNextDTag protocol_tags absent_payload).1) as Hpos by discriminate.
  assert ((readBinaryDTagElement (decoder absent_payload)
             (peekAndGetNextDTag protocol_tags absent_payload).1).1 = Normal None)
    as Hread by reflexivity.
  assert (bare_host !! "ContentDecodingException" = None) as Hunbound by reflexivity.
  pose proof (from_ndnb_absent_payload protocol_tags bare_host key_identifier
                absent_payload) as Hall.
  cbv zeta in Hall. destruct (Hall Hpos Hread) as (_ & Hid & _ & _ & _ & Hex).
  split; [exact Hpos|]. split; [exact Hread|]. split; [exact Hunbound|].
  split; [exact (Hex Hunbound) | exact Hid].
Defined.

Lemma peek_iff_a_tag_matches_witness :
  (forall t, t ∈ probe_order protocol_tags -> 0 <= t)
  /\ (exists t, t ∈ probe_order protocol_tags /\ peekDTag (decoder two_matches) t = true)
  /\ (peek protocol_tags two_matches).1 = true.
Proof.
  assert (forall t, t ∈ probe_order protocol_tags -> 0 <= t) as Hnonneg.
  { intros t Hin. unfold probe_order, protocol_tags in Hin. cbn in Hin.
    repeat (apply elem_of_cons in Hin as [->|Hin]; [discriminate|]).
    by apply not_elem_of_nil in Hin. }
  assert (exists t, t ∈ probe_order protocol_tags /\ peekDTag (decoder two_matches) t = true)
    as Hmatch.
  { exists 60. split; [apply list_elem_of_further, list_elem_of_here | reflexivity]. }
  split; [exact Hnonneg|]. split; [exact Hmatch|].
  exact (proj2 (proj2 (peek_iff_a_tag_matches protocol_tags two_matches Hnonneg)) Hmatch).
Defined.

Lemma peek_decides_read_witness :
  (peek protocol_tags certificate_wire).1 = true
  /\ calls_since certificate_wire
       (decoding_after (from_ndnb protocol_tags bare_host blank_identifier certificate_wire))
     = [CallPeekDTag 59; CallPeekDTag 60; CallReadBinaryDTagElement 60].
Proof.
  assert ((peek protocol_tags certificate_wire).1 = true) as Hpeek by reflexivity.
  split; [exact Hpeek|].
  pose proof (peek_decides_read protocol_tags bare_host blank_identifier certificate_wire)
    as Hall.
  cbv zeta in Hall. destruct Hall as (_ & Hcalls).
  exact (Hcalls Hpeek).
Defined.

Lemma to_ndnb_null_type_fails_witness :
  publisherType blank_identifier = None
  /\ exists ex, to_ndnb lenient_host blank_identifier ([] : Wire) = (Throw ex, []).
Proof.
  split; [reflexivity|].
  exact (to_ndnb_null_type_fails lenient_host blank_identifier ([] : Wire) eq_refl).
Defined.

(** * Further properties of the signature verifier *)

Section VerifierMore.
Context (env : Environment).

(** The six ways through [verifySignaturePromise], with their conditions. *)
Lemma verify_cases buffer signature k d u p :
  let r := verifySignaturePromise env buffer signature k d u p in
  (exists ex, to_PublicKey env k = Throw ex
     /\ r = (Normal (SyncPromise_reject (InvalidKey ex)), p))
  \/ (exists pk, to_PublicKey env k = Normal pk
        /\ ((sha256_in_force env d = false
             /\ r = (Normal (SyncPromise_reject UnsupportedAlgorithm), p))
            \/ (sha256_in_force env d = true
                /\ ((getKeyType pk <> KeyType_RSA (types env)
                     /\ getKeyType pk <> KeyType_ECDSA (types env)
                     /\ r = (Normal (SyncPromise_reject UnsupportedKeyType), p))
                    \/ (getKeyType pk = KeyType_RSA (types env)
                        /\ truthy (useSync_in_force d u) = false
                        /\ exists subtle, crypto_subtle env = Some subtle
                             /\ r = (Normal (AsyncPromise
                                               (engine_settlement subtle (unwrap buffer)
                                                  (unwrap signature) pk)),
                                     after_import pk p))
                    \/ (exists algorithm keyType,
                          (algorithm = "RSA-SHA256" /\ keyType = "RSA"
                           /\ getKeyType pk = KeyType_RSA (types env)
                           /\ (truthy (useSync_in_force d u) = true
                               \/ crypto_subtle env = None)
                           \/ algorithm = "sha256" /\ keyType = "ECDSA"
                              /\ getKeyType pk <> KeyType_RSA (types env)
                              /\ getKeyType pk = KeyType_ECDSA (types env))
                          /\ r = (Normal
                                    match run_verifier env algorithm (unwrap buffer)
                                            (pem_of_der (getKeyDer pk))
                                            (signatureBytes_for (flag_in_force env p)
                                               (unwrap signature)) with
                                    | Normal ok => SyncPromise_resolve ok
                                    | Throw ex =>
                                        SyncPromise_reject (VerificationEngineError keyType ex)
                                    end,
                                  after_sync env algorithm (unwrap buffer)
                                    (unwrap signature) pk p)))))).
Proof.
  intros r. subst r.
  destruct (to_PublicKey env k) as [pk|ex] eqn:Hk;
    [right; exists pk; split; [done|]
    |left; exists ex; split; [done | by apply verify_key_refused]].
  destruct (sha256_in_force env d) eqn:Hd;
    [right; split; [done|] | left; split; [done | by eapply verify_digest_refused]].
  destruct (Z.eq_dec (getKeyType pk) (KeyType_RSA (types env))) as [Hrsa|Hrsa].
  - destruct (UseSubtleCrypto env && negb (truthy (useSync_in_force d u))) eqn:Hsync.
    + pose proof Hsync as Hsync'.
      apply andb_true_iff in Hsync' as [Huse Hns]. apply negb_true_iff in Hns.
      unfold UseSubtleCrypto in Huse.
      destruct (crypto_subtle env) as [subtle|] eqn:Hsubtle; [|discriminate].
      right; left. split; [done|]. split; [done|]. exists subtle. split; [done|].
      by eapply verify_engine.
    + right; right. exists "RSA-SHA256", "RSA". split.
      * left. repeat split; try done.
        apply andb_false_iff in Hsync as [Huse|Hns].
        -- right. unfold UseSubtleCrypto in Huse. by destruct (crypto_subtle env).
        -- left. by apply negb_false_iff in Hns.
      * by eapply verify_rsa_sync.
  - destruct (Z.eq_dec (getKeyType pk) (KeyType_ECDSA (types env))) as [Hec|Hec].
    + right; right. exists "sha256", "ECDSA". split; [by right|].
      by eapply verify_ecdsa_sync.
    + left. repeat split; try done. by eapply verify_key_type_refused.
Qed.

Lemma since_after_import pk p :
  since p (after_import pk p) = [CallImportKey (getKeyDer_buffer pk)].
Proof. apply since_app. Qed.

(** The calls of a synchronous verification. *)
Lemma in_sync_calls algorithm buffer signature pk p c :
  c ∈ since p (after_sync env algorithm buffer signature pk p) ->
  (c = CallCreateHash "sha256" /\ verifyUsesString_ p = None)
  \/ c = CallCreateVerify algorithm
  \/ c = CallVerify (pem_of_der (getKeyDer pk))
         (signatureBytes_for (flag_in_force env p) signature).
Proof.
  rewrite since_after_sync. unfold probe_calls.
  intros [Hin|Hin]%elem_of_app.
  - destruct (verifyUsesString_ p); [by apply not_elem_of_nil in Hin|].
    apply list_elem_of_singleton in Hin. by left.
  - apply elem_of_cons in Hin as [->|Hin]; [by right; left|].
    destruct (is_Throw _); [by apply not_elem_of_nil in Hin|].
    apply list_elem_of_singleton in Hin. by right; right.
Qed.

Lemma createVerify_in_sync_calls algorithm buffer signature pk p :
  CallCreateVerify algorithm ∈ since p (after_sync env algorithm buffer signature pk p).
Proof. rewrite since_after_sync. apply elem_of_app. right. by left. Qed.

Lemma sync_calls_length algorithm buffer signature pk p :
  (length (since p (after_sync env algorithm buffer signature pk p)) <= 3)%nat.
Proof.
  rewrite since_after_sync, length_app. unfold probe_calls.
  destruct (verifyUsesString_ p), (is_Throw _); cbn; lia.
Qed.

(** X8: when [useSync] is set, and when the host has no engine, the promise
    returned is a SyncPromise, settled when it is returned, and the engine
    is not called; so it is for every key, digest algorithm and state. *)
Theorem useSync_returns_SyncPromise buffer signature k d u p :
  let r := verifySignaturePromise env buffer signature k d u p in
  truthy (useSync_in_force d u) = true \/ crypto_subtle env = None ->
  (exists settled, r.1 = Normal (SyncPromise settled))
  /\ forall der, CallImportKey der ∉ since p r.2.
Proof.
  intros r Hsync. subst r.
  destruct (verify_cases buffer signature k d u p)
    as [(ex & _ & ->)|(pk & Hk & [[_ ->]|[_ [(_ & _ & ->)|[(_ & Hns & subtle & Hsub & _)
         |(alg & kt & _ & ->)]]]])]; cbn [fst snd].
  - rewrite since_refl. split; [by eexists | intros der; apply not_elem_of_nil].
  - rewrite since_refl. split; [by eexists | intros der; apply not_elem_of_nil].
  - rewrite since_refl. split; [by eexists | intros der; apply not_elem_of_nil].
  - destruct Hsync as [Hs|Hnone]; congruence.
  - split; [destruct (run_verifier _ _ _ _ _); by eexists|].
    intros der Hin. apply in_sync_calls in Hin as [[? _]|[?|?]]; discriminate.
Qed.

Lemma verify_in_sync_calls algorithm buffer signature pk p :
  is_Throw (prepared env algorithm buffer) = false ->
  CallVerify (pem_of_der (getKeyDer pk))
    (signatureBytes_for (flag_in_force env p) signature)
    ∈ since p (after_sync env algorithm buffer signature pk p).
Proof.
  intros Hready. rewrite since_after_sync, Hready.
  apply elem_of_app. right. right. by left.
Qed.

(** C7: with SHA-256 in force, the call is handed to the asynchronous engine
    if and only if the key is an RSA key, the engine is available and
    [useSync] is not set; the promise is then the engine's, which imports
    the key data and verifies.  On an ECDSA key the call takes the
    synchronous path, whatever the engine and [useSync]: it makes the PEM
    text of the DER, runs the verifier "sha256" on it and returns a
    SyncPromise that is settled already, and the engine is not called.  On a
    key of any other type the promise is rejected for an invalid key type. *)
Theorem key_type_decision_under_sha256 buffer signature k d u p :
  sha256_in_force env d = true ->
  key_type_decision env buffer signature k (useSync_in_force d u) p
    (verifySignaturePromise env buffer signature k d u p).
Proof.
  intros Hd. unfold key_type_decision, delegated.
  destruct (verify_cases buffer signature k d u p)
    as [(ex & Hk & ->)|(pk & Hk & [[Hd' _]|[_ [(Hrsa & Hec & ->)
         |[(Hrsa & Hns & subtle & Hsub & ->)|(alg & kt & Hname & ->)]]]])];
    [|congruence| | |]; cbn [fst snd].
  - split; [|split; [|split]].
    + split; [by intros [[? ?] _] | intros (pk & ? & _); congruence].
    + intros; congruence.
    + intros; congruence.
    + intros; congruence.
  - split; [|split; [|split]].
    + split; [by intros [[? ?] _]|].
      intros (pk' & Hk' & Hrsa' & _). congruence.
    + intros pk' subtle Hk' Hrsa'. congruence.
    + intros pk' Hk' Hec'. congruence.
    + done.
  - rewrite since_after_import. split; [|split; [|split]].
    + split.
      * intros _. exists pk. unfold UseSubtleCrypto. by rewrite Hsub.
      * intros _. split; [by eexists|].
        exists (getKeyDer_buffer pk). by apply list_elem_of_singleton.
    + intros pk' subtle' Hk' _ Hsub' _.
      assert (pk' = pk) as -> by congruence.
      assert (subtle' = subtle) as -> by congruence.
      split; [done | by apply list_elem_of_singleton].
    + intros pk' Hk' Hec' Hdistinct. congruence.
    + intros pk' Hk' Hrsa' _. congruence.
  - destruct Hname as [(-> & -> & Hrsa & Hsync)|(-> & -> & Hrsa & Hec)].
    + split; [|split; [|split]].
      * split.
        -- intros [[s Hs] _]. by destruct (run_verifier _ _ _ _ _).
        -- intros (pk' & _ & _ & Huse & Hns). unfold UseSubtleCrypto in Huse.
           destruct Hsync as [Hsync|Hnone]; [congruence|].
           rewrite Hnone in Huse. discriminate.
      * intros pk' subtle' _ _ Hsub' Hns'. destruct Hsync; congruence.
      * intros pk' Hk' Hec' Hdistinct. congruence.
      * intros pk' Hk' Hrsa' _. congruence.
    + split; [|split; [|split]].
      * split.
        -- intros [[s Hs] _]. by destruct (run_verifier _ _ _ _ _).
        -- intros (pk' & Hk' & Hrsa' & _). congruence.
      * intros pk' subtle' Hk' Hrsa'. congruence.
      * intros pk' Hk' _ _. assert (pk' = pk) as -> by congruence.
        unfold synchronous. cbv zeta. cbn [fst snd].
        split; [done|].
        split; [destruct (run_verifier _ _ _ _ _); by eexists|].
        split; [apply createVerify_in_sync_calls|].
        split; [apply verify_in_sync_calls|].
        intros keyData Hin. apply in_sync_calls in Hin as [[? _]|[?|?]]; discriminate.
      * intros pk' Hk' _ Hec'. congruence.
Qed.

(** X9: of the backend calls the process keeps track of (the probe
    [createHash], [importKey], [createVerify], [verifier.verify]), one
    verification makes these.  An import is made only for an RSA key, is
    given the ArrayBuffer behind that key's DER, and the verification that
    makes it creates no verifier and makes no probe.  A verifier is created
    under "RSA-SHA256" for an RSA key and under "sha256" for an ECDSA key,
    and under no other name.  A [verify] is made only by a verification
    that created a verifier, and is given the PEM text of the key's DER and
    the signature in the form the flag in force asks for.  The probe is
    made only as "sha256", only while the flag is unset, and only by a
    verification that creates a verifier. *)
Theorem verifySignaturePromise_calls buffer signature k d u p :
  let made := since p (verifySignaturePromise env buffer signature k d u p).2 in
  (forall keyData, CallImportKey keyData ∈ made ->
     (exists pk, to_PublicKey env k = Normal pk
        /\ keyData = getKeyDer_buffer pk
        /\ getKeyType pk = KeyType_RSA (types env))
     /\ (forall algorithm, CallCreateVerify algorithm ∈ made -> False)
     /\ (forall algorithm, CallCreateHash algorithm ∈ made -> False))
  /\ (forall algorithm, CallCreateVerify algorithm ∈ made ->
      exists pk, to_PublicKey env k = Normal pk
        /\ (algorithm = "RSA-SHA256" /\ getKeyType pk = KeyType_RSA (types env)
            \/ algorithm = "sha256" /\ getKeyType pk = KeyType_ECDSA (types env)))
  /\ (forall keyPem signatureBytes, CallVerify keyPem signatureBytes ∈ made ->
      (exists algorithm, CallCreateVerify algorithm ∈ made)
      /\ signatureBytes = signatureBytes_for (flag_in_force env p) (unwrap signature)
      /\ exists pk, to_PublicKey env k = Normal pk /\ keyPem = pem_of_der (getKeyDer pk))
  /\ (forall algorithm, CallCreateHash algorithm ∈ made ->
      algorithm = "sha256"
      /\ verifyUsesString_ p = None
      /\ exists name, CallCreateVerify name ∈ made).
Proof.
  intros made. subst made.
  destruct (verify_cases buffer signature k d u p)
    as [(ex & _ & ->)|(pk & Hk & [[_ ->]|[_ [(_ & _ & ->)|[(Hrsa & _ & subtle & _ & ->)
         |(alg & kt & Hname & ->)]]]])]; cbn [snd].
  1-3: rewrite since_refl;
       (split; [|split; [|split]]); intros; by apply not_elem_of_nil in H.
  - rewrite since_after_import. split; [|split; [|split]].
    + intros keyData Hin. apply list_elem_of_singleton in Hin. injection Hin as ->.
      split; [by exists pk|].
      split; intros ? Hin; apply list_elem_of_singleton in Hin; discriminate.
    + intros ? Hin. apply list_elem_of_singleton in Hin. discriminate.
    + intros ? ? Hin. apply list_elem_of_singleton in Hin. discriminate.
    + intros ? Hin. apply list_elem_of_singleton in Hin. discriminate.
  - split; [|split; [|split]].
    + intros keyData Hin. apply in_sync_calls in Hin as [[? _]|[?|?]]; discriminate.
    + intros algorithm Hin. exists pk. split; [done|].
      apply in_sync_calls in Hin as [[? _]|[[= ->]|?]]; try discriminate.
      destruct Hname as [(-> & _ & Hrsa & _)|(-> & _ & _ & Hec)]; [by left | by right].
    + intros keyPem signatureBytes Hin.
      apply in_sync_calls in Hin as [[? _]|[?|[= -> ->]]]; try discriminate.
      split; [exists alg; apply createVerify_in_sync_calls|]. split; [done|].
      by exists pk.
    + intros algorithm Hin.
      apply in_sync_calls in Hin as [[[= ->] Hnone]|[?|?]]; try discriminate.
      split; [done|]. split; [done|]. exists alg. apply createVerify_in_sync_calls.
Qed.

(** The promise of a call depends on the state through the flag in force
    only. *)
Lemma promise_depends_on_flag buffer signature k d u p p' :
  flag_in_force env p = flag_in_force env p' ->
  (verifySignaturePromise env buffer signature k d u p).1
  = (verifySignaturePromise env buffer signature k d u p').1.
Proof.
  intros Hflag.
  destruct (verify_cases buffer signature k d u p)
    as [(ex & Hk & ->)|(pk & Hk & [[Hd ->]|[Hd [(Hrsa & Hec & ->)
         |[(Hrsa & Hns & subtle & Hsub & ->)|(alg & kt & Hname & ->)]]]])]; cbn [fst].
  - by rewrite (verify_key_refused env _ _ _ _ _ _ _ Hk).
  - by rewrite (verify_digest_refused env _ _ _ _ _ _ _ Hk Hd).
  - by rewrite (verify_key_type_refused env _ _ _ _ _ _ _ Hk Hd Hrsa Hec).
  - by rewrite (verify_engine env _ _ _ _ _ _ _ _ Hk Hd Hrsa Hsub Hns).
  - destruct Hname as [(-> & -> & Hrsa & Hsync)|(-> & -> & Hrsa & Hec)].
    + rewrite (verify_rsa_sync env _ _ _ _ _ p' _ Hk Hd Hrsa); [by rewrite Hflag|].
      unfold UseSubtleCrypto. destruct Hsync as [->| ->]; [apply andb_false_r | done].
    + rewrite (verify_ecdsa_sync env _ _ _ _ _ p' _ Hk Hd Hrsa Hec). by rewrite Hflag.
Qed.

(** X10: the promise a call returns does not depend on the calls served
    before it: after any two histories from the loaded module the same
    request gets the same promise. *)
Theorem promise_independent_of_history (rs rs' : list Request) (r : Request) :
  (serve env r (after env rs initial)).1 = (serve env r (after env rs' initial)).1.
Proof.
  unfold serve. apply promise_depends_on_flag.
  rewrite !flag_consistent_in_force; [done | |];
    apply flag_consistent_after; by left.
Qed.

(** X11: a digest algorithm left out, as [undefined] or as [null], is
    SHA-256: the call is the call with the enumerator. *)
Theorem verifySignaturePromise_digest_omitted buffer signature k u p :
  verifySignaturePromise env buffer signature k VUndefined u p
  = verifySignaturePromise env buffer signature k
      (VNumber (DigestAlgorithm_SHA256 (types env))) u p
  /\ verifySignaturePromise env buffer signature k VNull u p
     = verifySignaturePromise env buffer signature k
         (VNumber (DigestAlgorithm_SHA256 (types env))) u p.
Proof.
  rewrite !verifySignaturePromise_unfold.
  cbn [sha256_in_force useSync_in_force]. by rewrite Z.eqb_refl.
Qed.

End VerifierMore.

(** *** The PEM text *)

Lemma append_assoc_string (a b c : string) : ((a ++ b) ++ c = a ++ (b ++ c))%string.
Proof.
  induction a as [|x a IH]; [reflexivity|].
  change (String x ((a ++ b) ++ c) = String x (a ++ (b ++ c)))%string. by f_equal.
Qed.

Lemma append_empty_r (a : string) : (a ++ "")%string = a.
Proof.
  induction a as [|x a IH]; [reflexivity|].
  change (String x (a ++ "") = String x a)%string. by f_equal.
Qed.

Lemma length_append_string (a b : string) :
  String.length (a ++ b)%string = (String.length a + String.length b)%nat.
Proof.
  induction a as [|x a IH]; [reflexivity|].
  change (S (String.length (a ++ b)%string) = S (String.length a + String.length b)).
  by f_equal.
Qed.

Lemma length_zero_empty (a : string) : String.length a = 0%nat -> a = "".
Proof. by destruct a. Qed.

Lemma substring_length (s : string) (i n : nat) :
  String.length (substring i n s) = Nat.min n (String.length s - i).
Proof.
  revert i n. induction s as [|c s IH]; intros [|i] [|n]; simpl; try done;
    rewrite ?IH; simpl; lia.
Qed.

(** The text from [i] on is the piece of [k] characters at [i] and the text
    from [i + k] on. *)
Lemma substring_split (s : string) (i k : nat) :
  substring i (String.length s - i) s
  = (substring i k s ++ substring (i + k) (String.length s - (i + k)) s)%string.
Proof.
  revert i k. induction s as [|c s IH]; intros i k.
  - by destruct i, k.
  - destruct i as [|i].
    + destruct k as [|k]; [reflexivity|].
      specialize (IH 0%nat k). rewrite Nat.sub_0_r in IH.
      change (String c (substring 0 (String.length s) s)
              = String c (substring 0 k s
                          ++ substring k (String.length s - k) s)%string).
      by f_equal.
    + apply IH.
Qed.

Lemma substring_whole (s : string) : substring 0 (String.length s) s = s.
Proof. induction s as [|c s IH]; cbn; [done | by f_equal]. Qed.

(** The loop appends the text from [i] on, cut into lines of 64 characters,
    the last one shorter when the text does not fill it. *)
Lemma pem_lines_layout (keyBase64 : string) (turns i : nat) (keyPem : string) :
  (String.length keyBase64 - i <= turns)%nat ->
  exists lines,
    pem_lines turns keyBase64 i keyPem = (keyPem ++ closed_lines lines)%string
    /\ flatten lines = substring i (String.length keyBase64 - i) keyBase64
    /\ (forall l, l ∈ lines -> (1 <= String.length l <= 64)%nat)
    /\ (forall k l, lines !! k = Some l -> (S k < length lines)%nat ->
                    String.length l = 64%nat).
Proof.
  revert i keyPem. induction turns as [|turns IH]; intros i keyPem Hturns.
  - exists []. simpl. split; [by rewrite append_empty_r|]. split.
    + symmetry. apply length_zero_empty. rewrite substring_length. lia.
    + split; [by intros l ?%not_elem_of_nil | by intros k l ?].
  - simpl. destruct (Nat.ltb_spec i (String.length keyBase64)) as [Hlt|Hge].
    + destruct (IH (i + 64)%nat (keyPem ++ (substring i 64 keyBase64 ++ newline))%string)
        as (lines & Hloop & Hflat & Hbounds & Hfull); [lia|].
      exists (substring i 64 keyBase64 :: lines).
      split; [|split; [|split]].
      * rewrite Hloop. unfold closed_lines. cbn [map flatten].
        by rewrite append_assoc_string.
      * simpl. rewrite Hflat. symmetry. apply substring_split.
      * intros l [->|Hin]%elem_of_cons; [|by apply Hbounds].
        rewrite substring_length. lia.
      * intros [|k] l Hl Hk; simpl in Hl.
        -- injection Hl as <-. rewrite substring_length.
           destruct lines as [|l' lines']; [simpl in Hk; lia|].
           assert (1 <= String.length l' <= 64)%nat as Hl' by (apply Hbounds; by left).
           assert (String.length (flatten (l' :: lines')) >= 1)%nat as Hrest.
           { cbn [flatten]. rewrite length_append_string. lia. }
           rewrite Hflat, substring_length in Hrest. lia.
        -- apply (Hfull k l Hl). simpl in Hk. lia.
    + exists []. simpl. split; [by rewrite append_empty_r|]. split.
      * symmetry. apply length_zero_empty. rewrite substring_length. lia.
      * split; [by intros l ?%not_elem_of_nil | by intros k l ?].
Qed.

(** X12: the PEM text made from a key is the BEGIN line, the base64 text of
    the DER cut into lines, each closed by a newline, and the END marker
    without a newline.  The lines put together are the base64 text; no line
    is empty or longer than 64 characters, and every line but the last has
    64. *)
Theorem pem_of_der_layout (der : bytes) :
  exists lines,
    pem_of_der der
    = (("-----BEGIN PUBLIC KEY-----" ++ newline) ++ closed_lines lines
       ++ "-----END PUBLIC KEY-----")%string
    /\ flatten lines = base64 der
    /\ (forall l, l ∈ lines -> (1 <= String.length l <= 64)%nat)
    /\ (forall k l, lines !! k = Some l -> (S k < length lines)%nat ->
                    String.length l = 64%nat).
Proof.
  destruct (pem_lines_layout (base64 der) (String.length (base64 der)) 0
              ("-----BEGIN PUBLIC KEY-----" ++ newline)%string)
    as (lines & Hloop & Hflat & Hbounds & Hfull); [lia|].
  exists lines. split; [|split; [|done]].
  - unfold pem_of_der. rewrite Hloop. by rewrite append_assoc_string.
  - by rewrite Hflat, Nat.sub_0_r, substring_whole.
Qed.

Lemma useSync_returns_SyncPromise_witness :
  (truthy (useSync_in_force (VBoolean true) VUndefined) = true
   \/ crypto_subtle browser_env = None)
  /\ (exists settled,
        (verifySignaturePromise browser_env (ArgBuffer message) (ArgBuffer message)
           (ArgPublicKey rsa_key) (VBoolean true) VUndefined initial).1
        = Normal (SyncPromise settled))
  /\ forall der,
       CallImportKey der
         ∉ since initial
             (verifySignaturePromise browser_env (ArgBuffer message) (ArgBuffer message)
                (ArgPublicKey rsa_key) (VBoolean true) VUndefined initial).2.
Proof.
  assert (truthy (useSync_in_force (VBoolean true) VUndefined) = true
          \/ crypto_subtle browser_env = None) as Hsync by (left; reflexivity).
  split; [exact Hsync|].
  pose proof (useSync_returns_SyncPromise browser_env (ArgBuffer message)
                (ArgBuffer message) (ArgPublicKey rsa_key) (VBoolean true) VUndefined
                initial) as Hall.
  cbv zeta in Hall. exact (Hall Hsync).
Defined.

Lemma verifySignaturePromise_calls_witness :
  CallImportKey (getKeyDer_buffer rsa_key)
    ∈ since initial
        (verifySignaturePromise browser_env (ArgBuffer message) (ArgBuffer message)
           (ArgPublicKey rsa_key) VUndefined VUndefined initial).2
  /\ (forall algorithm,
        CallCreateVerify algorithm
          ∈ since initial
              (verifySignaturePromise browser_env (ArgBuffer message) (ArgBuffer message)
                 (ArgPublicKey rsa_key) VUndefined VUndefined initial).2 -> False)
  /\ CallCreateVerify "sha256"
       ∈ since initial
           (verifySignaturePromise browser_env (ArgBuffer message) (ArgBuffer message)
              (ArgPublicKey ecdsa_key) VUndefined VUndefined initial).2
  /\ exists pk, to_PublicKey browser_env (ArgPublicKey ecdsa_key) = Normal pk
       /\ ("sha256" = "RSA-SHA256" /\ getKeyType pk = KeyType_RSA (types browser_env)
           \/ "sha256" = "sha256" /\ getKeyType pk = KeyType_ECDSA (types browser_env)).
Proof.
  assert (CallImportKey (getKeyDer_buffer rsa_key)
            ∈ since initial
                (verifySignaturePromise browser_env (ArgBuffer message) (ArgBuffer message)
                   (ArgPublicKey rsa_key) VUndefined VUndefined initial).2) as Himport
    by apply list_elem_of_here.
  assert (CallCreateVerify "sha256"
            ∈ since initial
                (verifySignaturePromise browser_env (ArgBuffer message) (ArgBuffer message)
                   (ArgPublicKey ecdsa_key) VUndefined VUndefined initial).2) as Hcreate
    by apply list_elem_of_further, list_elem_of_here.
  split; [exact Himport|].
  pose proof (verifySignaturePromise_calls browser_env (ArgBuffer message)
                (ArgBuffer message) (ArgPublicKey rsa_key) VUndefined VUndefined
                initial) as Hrsa.
  cbv zeta in Hrsa. destruct Hrsa as (Himp & _).
  split; [exact (proj1 (proj2 (Himp _ Himport)))|].
  split; [exact Hcreate|].
  pose proof (verifySignaturePromise_calls browser_env (ArgBuffer message)
                (ArgBuffer message) (ArgPublicKey ecdsa_key) VUndefined VUndefined
                initial) as Hec.
  cbv zeta in Hec. destruct Hec as (_ & Hname & _).
  exact (Hname _ Hcreate).
Defined.

Lemma key_type_decision_under_sha256_witness :
  sha256_in_force browser_env VUndefined = true
  /\ key_type_decision browser_env (ArgBuffer message) (ArgBlob forged)
       (ArgKeyBuffer [Byte.x01; Byte.x2a]) (useSync_in_force VUndefined (VBoolean false))
       initial
       (verifySignaturePromise browser_env (ArgBuffer message) (ArgBlob forged)
          (ArgKeyBuffer [Byte.x01; Byte.x2a]) VUndefined (VBoolean false) initial)
  /\ synchronous browser_env "sha256" "ECDSA" (ArgBuffer message) (ArgBlob forged)
       ecdsa_key initial
       (verifySignaturePromise browser_env (ArgBuffer message) (ArgBlob forged)
          (ArgKeyBuffer [Byte.x01; Byte.x2a]) VUndefined (VBoolean false) initial).
Proof.
  assert (sha256_in_force browser_env VUndefined = true) as Hd by reflexivity.
  pose proof (key_type_decision_under_sha256 browser_env (ArgBuffer message)
                (ArgBlob forged) (ArgKeyBuffer [Byte.x01; Byte.x2a]) VUndefined
                (VBoolean false) initial Hd) as Hall.
  split; [exact Hd|]. split; [exact Hall|].
  destruct Hall as (_ & _ & Hecdsa & _).
  apply (Hecdsa ecdsa_key); [reflexivity | reflexivity | discriminate].
Defined.

(** *** Decoding, then encoding *)

Section CodecCompose.
Context (tags : NDNProtocolDTags).
Context {D : Type} `{BinaryXMLDecoder D}.
Context {E : Type} `{BinaryXMLEncoder E}.
Context (host : Host).

(** X13: the object a successful [from_ndnb] leaves is labelled with the tag
    that was read under, and encoding it again fails with the encoder as it
    was or is the one [writeDTagElement] of that tag and of the payload that
    was read. *)
Theorem to_ndnb_after_from_ndnb (this : PublisherID) (s : Decoding D) (encoder : E) :
  let t := (peekAndGetNextDTag tags s).1 in
  let r := from_ndnb tags host this s in
  completion r = Normal tt ->
  getElementLabel (this_after r) = Normal t
  /\ ((exists ex, to_ndnb host (this_after r) encoder = (Throw ex, encoder))
      \/ (validate host (this_after r) = Normal true
          /\ exists payload,
               (readBinaryDTagElement (decoder s) t).1 = Normal (Some payload)
               /\ to_ndnb host (this_after r) encoder
                  = writeDTagElement encoder t (Some payload))).
Proof.
  intros t r. subst r. rewrite (from_ndnb_unfold tags host). cbv zeta. fold t.
  unfold completion, this_after.
  destruct (t <? 0); [discriminate|].
  destruct (readBinaryDTagElement (decoder s) t) as [[[payload|]|ex] d'];
    cbn [fst snd].
  - intros _. split; [reflexivity|].
    unfold to_ndnb, getElementLabel. cbn [set_publisherID set_publisherType publisherType
      publisherID new_PublisherType Tag].
    match goal with |- context [validate host ?o] => destruct (validate host o) as [[|]|ex] end;
      [right | left; by eexists..].
    split; [done|]. by exists payload.
  - destruct (throw_ContentDecodingException_throws host (A:=unit)
                ("Cannot parse publisher ID of type : " ++ toString (VNumber t) ++ "."))
      as [ex ->]. discriminate.
  - discriminate.
Qed.

End CodecCompose.

Lemma to_ndnb_after_from_ndnb_witness :
  completion (from_ndnb protocol_tags lenient_host blank_identifier certificate_wire)
  = Normal tt
  /\ getElementLabel
       (this_after (from_ndnb protocol_tags lenient_host blank_identifier certificate_wire))
     = Normal (peekAndGetNextDTag protocol_tags certificate_wire).1
  /\ to_ndnb lenient_host
       (this_after (from_ndnb protocol_tags lenient_host blank_identifier certificate_wire))
       ([] : Wire)
     = (Normal tt, [(60, sample_digest)]).
Proof.
  assert (completion (from_ndnb protocol_tags lenient_host blank_identifier certificate_wire)
          = Normal tt) as Hreturns by reflexivity.
  split; [exact Hreturns|].
  pose proof (to_ndnb_after_from_ndnb protocol_tags lenient_host blank_identifier
                certificate_wire ([] : Wire)) as Hall.
  cbv zeta in Hall. destruct (Hall Hreturns) as (Hlabel & _).
  split; [exact Hlabel | reflexivity].
Defined.
